(** * pac_tool: the codec layer of the .pac archive tool

    A shallow embedding of [pac_tool.py]: the length-prefixed resource
    names, the animation frames and documents (TTP), the classified file
    payloads (BMZ / TTP / other), the archive entries and the archive
    builder, followed by the properties of the codec.

    Conventions of the embedding:
    - [bytes] is [list byte]; a Python [int] is a [Z]; a position or a
      length is a [nat]; a Python [str] is its list of code points.
    - a call that can raise returns a [result]; the exception classes
      are the constructors of [exn].
    - [struct.pack]/[struct.unpack] with the little-endian formats used by
      the tool are written out over coqutil's [le_split]/[le_combine].
    - the text codec ([shift_jis]), [zlib] and [json] are libraries of the
      host language: they are interfaces here ([ShiftJis], [Zlib],
      [Json]), with the facts a proof needs stated as laws. *)

From Stdlib Require Import String ZArith List Lia Bool.
From Stdlib Require Import Init.Byte.
From coqutil Require Import Byte Word.LittleEndianList.
Import ListNotations.
Local Open Scope Z_scope.
Set Warnings "-register-all".

(** ** Exceptions and results *)

Inductive exn : Type :=
| struct_error          (* struct.error: wrong buffer size, value out of range *)
| UnicodeEncodeError    (* str.encode without an error handler *)
| EOFError              (* raised by PacEntry.from_file *)
| ValueError            (* "Too long entry name", "Invalid archive file", "Failed to decompress BMZ" *)
| KeyError              (* dict[key] on an absent key *)
| TypeError             (* a JSON value of the wrong shape *)
| JSONDecodeError.      (* json.loads *)

Inductive result (A : Type) : Type :=
| Ok (a : A)
| Raise (e : exn).
Arguments Ok {A} a.
Arguments Raise {A} e.

Definition bind {A B} (r : result A) (k : A -> result B) : result B :=
  match r with
  | Ok a => k a
  | Raise e => Raise e
  end.

Declare Scope py_scope.
Delimit Scope py_scope with py.
Notation "x <- r ;; k" := (bind r (fun x => k))
  (at level 61, r at next level, right associativity) : py_scope.
Notation "' p <- r ;; k" := (bind r (fun x => let p := x in k))
  (at level 61, p pattern, r at next level, right associativity) : py_scope.
Local Open Scope py_scope.

Definition raises {A} (r : result A) : Prop := exists e, r = Raise e.
Definition returns {A} (r : result A) : Prop := exists a, r = Ok a.

(** ** Bytes, slices and [struct] *)

Definition bytes := list byte.

(** [data[lo:hi]] for non-negative bounds: Python clamps both to the
    length and yields the empty string when [hi <= lo]. *)
Definition slice (lo hi : nat) (data : bytes) : bytes :=
  firstn (hi - lo) (skipn lo data).

Definition is_u32 (z : Z) : bool := (0 <=? z) && (z <? 2 ^ 32).
Definition is_u8 (z : Z) : bool := (0 <=? z) && (z <? 2 ^ 8).

(** [struct.pack("<nI", z1, ..., zn)]: every value must fit 32 bits. *)
Fixpoint struct_pack_I (zs : list Z) : result bytes :=
  match zs with
  | [] => Ok []
  | z :: rest =>
      if is_u32 z
      then (tl <- struct_pack_I rest ;; Ok (le_split 4 z ++ tl))
      else Raise struct_error
  end.

(** [struct.pack("<B", z)]. *)
Definition struct_pack_B (z : Z) : result bytes :=
  if is_u8 z then Ok [byte.of_Z z] else Raise struct_error.

Fixpoint unpack_words (n : nat) (b : bytes) : list Z :=
  match n with
  | O => []
  | S n' => le_combine (firstn 4 b) :: unpack_words n' (skipn 4 b)
  end.

(** [struct.unpack("<nI", b)]: the buffer must have exactly [4 n] bytes. *)
Definition struct_unpack_I (n : nat) (b : bytes) : result (list Z) :=
  if Nat.eqb (length b) (4 * n) then Ok (unpack_words n b) else Raise struct_error.

(** [struct.unpack("<B", b)[0]]. *)
Definition struct_unpack_B (b : bytes) : result Z :=
  match b with
  | [x] => Ok (byte.unsigned x)
  | _ => Raise struct_error
  end.

(** Tuple indexing [t[i]] on an unpacked tuple. *)
Definition item (i : nat) (t : list Z) : Z := nth i t 0.

(** ** The host libraries *)

(** A Python [str]: its code points. *)
Definition text := list Z.

(** The [shift_jis] codec as the tool calls it. [None] is the exception of
    the strict mode ([UnicodeEncodeError], [UnicodeDecodeError]); the
    [errors="replace"] mode never raises. *)
Class ShiftJis : Type := {
  sj_encode : text -> option bytes;
  sj_encode_replace : text -> bytes;
  sj_decode : bytes -> option text;
  sj_decode_replace : bytes -> text
}.

(** What the proofs use of the codec. The replace mode only differs from
    the strict one where the strict one raises; strictly decoded text
    encodes back to as many bytes as it came from (the codec is stateless,
    and every character it decodes from one or two bytes encodes to one or
    two bytes); and text decoded with replacement characters (U+FFFD) has
    no strict encoding. *)
Class ShiftJisLaws (C : ShiftJis) : Prop := {
  sj_replace_agrees :
    forall s b, sj_encode s = Some b -> sj_encode_replace s = b;
  sj_reencode_length :
    forall b s, sj_decode b = Some s ->
      exists b', sj_encode s = Some b' /\ length b' = length b;
  sj_replaced_unencodable :
    forall b, sj_decode b = None -> sj_encode (sj_decode_replace b) = None
}.

(** [zlib.compress] and [zlib.decompress] ([None] is [zlib.error]). *)
Class Zlib : Type := {
  zlib_compress : bytes -> bytes;
  zlib_decompress : bytes -> option bytes
}.

Class ZlibLaws (Z : Zlib) : Prop := {
  zlib_decompress_compress : forall b, zlib_decompress (zlib_compress b) = Some b
}.

(** JSON values, as [json.loads] builds them and [json.dumps] prints them. *)
Inductive json : Type :=
| JNull
| JInt (z : Z)
| JStr (s : text)
| JArr (l : list json)
| JObj (kv : list (string * json)).

(** [json.loads(data.decode("utf-8"))] and
    [json.dumps(v, indent=2, ensure_ascii=False).encode("utf-8")]. *)
Class Json : Type := {
  json_loads : bytes -> option json;
  json_dumps : json -> bytes
}.

(** ** ResName: a length-prefixed SHIFT-JIS name *)

Record ResName : Type := { value : text }.

Section Codec.
Context {SJ : ShiftJis}.

(** [ResName.from_bytes]. *)
Definition ResName_from_bytes (data : bytes) : result ResName :=
  l <- struct_unpack_I 1 (slice 0 4 data) ;;
  let length := Z.to_nat (item 0 l) in
  let sj_bytes := slice 4 (4 + length) data in
  Ok {| value := match sj_decode sj_bytes with
                 | Some v => v
                 | None => sj_decode_replace sj_bytes
                 end |}.

(** [ResName.to_bytes]. *)
Definition ResName_to_bytes (r : ResName) : result bytes :=
  let encoded := match sj_encode (value r) with
                 | Some e => e
                 | None => sj_encode_replace (value r)
                 end in
  hd <- struct_pack_I [Z.of_nat (List.length encoded)] ;;
  Ok (hd ++ encoded).

(** [len(name.value.encode("shift_jis"))], the strict encoding. *)
Definition encoded_len (r : ResName) : result nat :=
  match sj_encode (value r) with
  | Some e => Ok (List.length e)
  | None => Raise UnicodeEncodeError
  end.

(** ** TtpFrame: a frame of animation *)

Record TtpFrame : Type := {
  sprite_name : ResName;
  se_name : ResName;
  textbox_name : ResName;
  delay_ms : Z;
  x_offset_textbox : Z;
  y_offset_textbox : Z;
  x_offset : Z;
  y_offset : Z
}.

(** [TtpFrame.from_bytes]. *)
Definition TtpFrame_from_bytes (data : bytes) : result TtpFrame :=
  let pos := 0%nat in
  sprite <- ResName_from_bytes (skipn pos data) ;;
  n1 <- encoded_len sprite ;;
  let pos := (pos + (4 + n1))%nat in
  se <- ResName_from_bytes (skipn pos data) ;;
  n2 <- encoded_len se ;;
  let pos := (pos + (4 + n2))%nat in
  textbox <- ResName_from_bytes (skipn pos data) ;;
  n3 <- encoded_len textbox ;;
  let pos := (pos + (4 + n3))%nat in
  values <- struct_unpack_I 5 (slice pos (pos + 20) data) ;;
  Ok {| sprite_name := sprite;
        se_name := se;
        textbox_name := textbox;
        delay_ms := item 0 values;
        x_offset_textbox := item 1 values;
        y_offset_textbox := item 2 values;
        x_offset := item 3 values;
        y_offset := item 4 values |}.

(** [TtpFrame.to_bytes]. *)
Definition TtpFrame_to_bytes (f : TtpFrame) : result bytes :=
  a <- ResName_to_bytes (sprite_name f) ;;
  b <- ResName_to_bytes (se_name f) ;;
  c <- ResName_to_bytes (textbox_name f) ;;
  d <- struct_pack_I [delay_ms f; x_offset_textbox f; y_offset_textbox f;
                      x_offset f; y_offset f] ;;
  Ok (a ++ b ++ c ++ d).

(** The bytes the document decoder steps over after reading a frame. *)
Definition frame_advance (f : TtpFrame) : result nat :=
  n1 <- encoded_len (sprite_name f) ;;
  n2 <- encoded_len (se_name f) ;;
  n3 <- encoded_len (textbox_name f) ;;
  Ok ((4 + n1) + (4 + n2) + (4 + n3) + 20)%nat.

(** ** TtpFile: an encoded animation *)

Record TtpFile : Type := {
  maybe_ttp_type : Z;
  frame_count : Z;
  window_width : Z;
  window_height : Z;
  frames : list TtpFrame;
  onetime_wakeup_dont_play_sound : option Z
}.

(** The loop [for _ in range(frame_count)] of [TtpFile.from_bytes]: the
    frames read from [pos] on, and the position after them. *)
Fixpoint read_frames (n : nat) (data : bytes) (pos : nat)
  : result (list TtpFrame * nat) :=
  match n with
  | O => Ok ([], pos)
  | S n' =>
      frame <- TtpFrame_from_bytes (skipn pos data) ;;
      adv <- frame_advance frame ;;
      '(rest, pos') <- read_frames n' data (pos + adv) ;;
      Ok (frame :: rest, pos')
  end.

(** [TtpFile.from_bytes]. *)
Definition TtpFile_from_bytes (data : bytes) : result TtpFile :=
  header <- struct_unpack_I 4 (slice 0 16 data) ;;
  let count := item 1 header in
  '(frs, pos) <- read_frames (Z.to_nat count) data 16 ;;
  flag <- (if (item 0 header =? 3) && Nat.ltb pos (List.length data)
           then (v <- struct_unpack_B (slice pos (pos + 1) data) ;; Ok (Some v))
           else Ok None) ;;
  Ok {| maybe_ttp_type := item 0 header;
        frame_count := count;
        window_width := item 2 header;
        window_height := item 3 header;
        frames := frs;
        onetime_wakeup_dont_play_sound := flag |}.

(** The loop [for frame in self.frames: data += frame.to_bytes()]. *)
Fixpoint frames_to_bytes (fs : list TtpFrame) : result bytes :=
  match fs with
  | [] => Ok []
  | f :: rest =>
      a <- TtpFrame_to_bytes f ;;
      b <- frames_to_bytes rest ;;
      Ok (a ++ b)
  end.

(** [TtpFile.to_bytes]. *)
Definition TtpFile_to_bytes (t : TtpFile) : result bytes :=
  header <- struct_pack_I [maybe_ttp_type t; frame_count t;
                           window_width t; window_height t] ;;
  body <- frames_to_bytes (frames t) ;;
  tail <- match onetime_wakeup_dont_play_sound t with
          | Some v => if maybe_ttp_type t =? 3 then struct_pack_B v else Ok []
          | None => Ok []
          end ;;
  Ok (header ++ body ++ tail).

(** ** The editable (JSON) form of an animation *)

(** [d[key]] on a parsed object; a key given twice keeps its last value. *)
Definition getitem (key : string) (d : json) : result json :=
  match d with
  | JObj kv =>
      match find (fun p => String.eqb (fst p) key) (rev kv) with
      | Some p => Ok (snd p)
      | None => Raise KeyError
      end
  | _ => Raise TypeError
  end.

(** [d.get(key)]: [None] for an absent key. *)
Definition get (key : string) (d : json) : result json :=
  match d with
  | JObj kv =>
      match find (fun p => String.eqb (fst p) key) (rev kv) with
      | Some p => Ok (snd p)
      | None => Ok JNull
      end
  | _ => Raise TypeError
  end.

(** The embedding is typed: a field that [to_bytes] hands to [struct.pack]
    holds an integer and a name holds a string. The source stores whatever
    the document has and raises when the value is packed; here the wrong
    shape is refused when the field is read. *)
Definition as_int (v : json) : result Z :=
  match v with JInt z => Ok z | _ => Raise TypeError end.

Definition as_str (v : json) : result text :=
  match v with JStr s => Ok s | _ => Raise TypeError end.

Definition as_optional_int (v : json) : result (option Z) :=
  match v with
  | JNull => Ok None
  | JInt z => Ok (Some z)
  | _ => Raise TypeError
  end.

Definition int_field (key : string) (d : json) : result Z :=
  v <- getitem key d ;; as_int v.

(** [ResName.from_json(d[key])]. *)
Definition name_field (key : string) (d : json) : result ResName :=
  v <- getitem key d ;; s <- as_str v ;; Ok {| value := s |}.

(** [TtpFrame.from_dict]. *)
Definition TtpFrame_from_dict (d : json) : result TtpFrame :=
  sprite <- name_field "sprite_name" d ;;
  se <- name_field "se_name" d ;;
  textbox <- name_field "textbox_name" d ;;
  delay <- int_field "delay_ms" d ;;
  xt <- int_field "x_offset_textbox" d ;;
  yt <- int_field "y_offset_textbox" d ;;
  x <- int_field "x_offset" d ;;
  y <- int_field "y_offset" d ;;
  Ok {| sprite_name := sprite; se_name := se; textbox_name := textbox;
        delay_ms := delay; x_offset_textbox := xt; y_offset_textbox := yt;
        x_offset := x; y_offset := y |}.

(** [TtpFrame.to_dict]. *)
Definition TtpFrame_to_dict (f : TtpFrame) : json :=
  JObj [ ("sprite_name"%string, JStr (value (sprite_name f)));
         ("se_name"%string, JStr (value (se_name f)));
         ("textbox_name"%string, JStr (value (textbox_name f)));
         ("delay_ms"%string, JInt (delay_ms f));
         ("x_offset_textbox"%string, JInt (x_offset_textbox f));
         ("y_offset_textbox"%string, JInt (y_offset_textbox f));
         ("x_offset"%string, JInt (x_offset f));
         ("y_offset"%string, JInt (y_offset f)) ].

(** The comprehension [[TtpFrame.from_dict(frame) for frame in ...]]. *)
Fixpoint frames_from_dicts (l : list json) : result (list TtpFrame) :=
  match l with
  | [] => Ok []
  | d :: rest =>
      f <- TtpFrame_from_dict d ;;
      fs <- frames_from_dicts rest ;;
      Ok (f :: fs)
  end.

(** [TtpFile.from_dict]. *)
Definition TtpFile_from_dict (d : json) : result TtpFile :=
  ty <- int_field "maybe_ttp_type" d ;;
  count <- int_field "frame_count" d ;;
  w <- int_field "window_width" d ;;
  h <- int_field "window_height" d ;;
  fl <- getitem "frames" d ;;
  frs <- match fl with
         | JArr l => frames_from_dicts l
         | _ => Raise TypeError
         end ;;
  fv <- get "onetime_wakeup_dont_play_sound" d ;;
  flag <- as_optional_int fv ;;
  Ok {| maybe_ttp_type := ty; frame_count := count;
        window_width := w; window_height := h;
        frames := frs; onetime_wakeup_dont_play_sound := flag |}.

(** [TtpFile.to_dict]. *)
Definition TtpFile_to_dict (t : TtpFile) : json :=
  JObj ([ ("maybe_ttp_type"%string, JInt (maybe_ttp_type t));
          ("frame_count"%string, JInt (frame_count t));
          ("window_width"%string, JInt (window_width t));
          ("window_height"%string, JInt (window_height t));
          ("frames"%string, JArr (map TtpFrame_to_dict (frames t))) ]
        ++ match onetime_wakeup_dont_play_sound t with
           | Some v => [ ("onetime_wakeup_dont_play_sound"%string, JInt v) ]
           | None => []
           end).

(** ** PacFile: a file found in an archive *)

Inductive FileType : Type := bmz | ttp | other.

Record PacFile : Type := {
  file_type : FileType;
  data : bytes;
  uncompressed_size : Z
}.

(** [b"ZLC3"]. *)
Definition ZLC3 : bytes := [x5a; x4c; x43; x33].

Definition bytes_eqb (a b : bytes) : bool :=
  if list_eq_dec Byte.byte_eq_dec a b then true else false.

(** [data.startswith(prefix)]. *)
Definition startswith (prefix buf : bytes) : bool :=
  bytes_eqb (firstn (List.length prefix) buf) prefix.

Context {ZL : Zlib} {JS : Json}.

(** [PacFile.from_bytes]. [size] is the entry's size field. The second
    test of the source is [... or True], so its last branch is dead; the
    bare [except:] catches every exception of the animation decoder. *)
Definition PacFile_from_bytes (buf : bytes) (size : nat) : result PacFile :=
  if startswith ZLC3 buf then
    l <- struct_unpack_I 1 (slice 4 8 buf) ;;
    Ok {| file_type := bmz;
          uncompressed_size := item 0 l;
          data := slice 8 size buf |}
  else if bytes_eqb (slice 0 4 buf) [x00; x00; x00; x00] || true then
    match TtpFile_from_bytes (slice 0 size buf) with
    | Ok _ => Ok {| file_type := ttp; data := slice 0 size buf;
                    uncompressed_size := 0 |}
    | Raise _ => Ok {| file_type := other; data := slice 0 size buf;
                       uncompressed_size := 0 |}
    end
  else
    Ok {| file_type := other; data := slice 0 size buf; uncompressed_size := 0 |}.

(** [PacFile.converted_data]: the data written on extraction. *)
Definition converted_data (p : PacFile) : result bytes :=
  match file_type p with
  | bmz =>
      match zlib_decompress (data p) with
      | Some b => Ok b
      | None => Raise ValueError
      end
  | ttp =>
      t <- TtpFile_from_bytes (data p) ;;
      Ok (json_dumps (TtpFile_to_dict t))
  | other => Ok (data p)
  end.

(** [PacFile.to_bytes]: the bytes written on packing. *)
Definition PacFile_to_bytes (p : PacFile) : result bytes :=
  match file_type p with
  | bmz =>
      hd <- struct_pack_I [uncompressed_size p] ;;
      Ok ((ZLC3 ++ hd) ++ data p)
  | _ => Ok (data p)
  end.

(** [PacFile.convert_back]. *)
Definition convert_back (buf : bytes) (conv_extension : string) : result PacFile :=
  if String.eqb conv_extension "bmp" then
    Ok {| file_type := bmz;
          uncompressed_size := Z.of_nat (List.length buf);
          data := zlib_compress buf |}
  else if String.eqb conv_extension "json" then
    match json_loads buf with
    | None => Raise JSONDecodeError
    | Some ttp_dict =>
        t <- TtpFile_from_dict ttp_dict ;;
        b <- TtpFile_to_bytes t ;;
        Ok {| file_type := ttp; data := b; uncompressed_size := 0 |}
    end
  else
    Ok {| file_type := other; data := buf; uncompressed_size := 0 |}.

(** ** PacEntry: an archive entry *)

Definition ENTRY_NAME_SIZE : nat := 56.
Definition ENTRY_HEADER_SIZE : nat := 8 + ENTRY_NAME_SIZE.

Record PacEntry : Type := {
  offset : Z;
  size : Z;
  name : text;
  file_data : PacFile
}.

(** A binary file open for reading: its content and the read position. *)
Record BinaryIO : Type := { content : bytes; position : nat }.

(** [f.read(n)]: at most [n] bytes, fewer at the end of the file. *)
Definition f_read (n : nat) (f : BinaryIO) : bytes * BinaryIO :=
  let got := slice (position f) (position f + n) (content f) in
  (got, {| content := content f; position := position f + List.length got |}).

Definition f_tell (f : BinaryIO) : nat := position f.

Definition f_seek (pos : nat) (f : BinaryIO) : BinaryIO :=
  {| content := content f; position := pos |}.

(** [name_data.find(b"\x00")], [None] for [-1]. *)
Fixpoint find_null (b : bytes) : option nat :=
  match b with
  | [] => None
  | x :: rest =>
      if Byte.eqb x x00 then Some 0%nat
      else option_map S (find_null rest)
  end.

(** [PacEntry.from_file]: the entry read at the position of [f], and [f]
    afterwards. *)
Definition PacEntry_from_file (f : BinaryIO) : result (PacEntry * BinaryIO) :=
  let '(offset_size_data, f) := f_read 8 f in
  if Nat.ltb (List.length offset_size_data) 8 then Raise EOFError else
  l <- struct_unpack_I 2 offset_size_data ;;
  let '(name_data, f) := f_read ENTRY_NAME_SIZE f in
  let name_data := match find_null name_data with
                   | Some null_pos => slice 0 null_pos name_data
                   | None => name_data
                   end in
  let nm := match sj_decode name_data with
            | Some s => s
            | None => sj_decode_replace name_data
            end in
  let current_pos := f_tell f in
  let f := f_seek (Z.to_nat (item 0 l)) f in
  let '(file_bytes, f) := f_read (Z.to_nat (item 1 l)) f in
  fd <- PacFile_from_bytes file_bytes (Z.to_nat (item 1 l)) ;;
  let f := f_seek current_pos f in
  Ok ({| offset := item 0 l; size := item 1 l; name := nm; file_data := fd |}, f).

(** [PacEntry.to_bytes]: the entry header. *)
Definition PacEntry_to_bytes (e : PacEntry) : result bytes :=
  let name_encoded := slice 0 (ENTRY_NAME_SIZE - 1) (sj_encode_replace (name e)) in
  let name_padded :=
    name_encoded ++ repeat x00 (ENTRY_NAME_SIZE - List.length name_encoded) in
  hd <- struct_pack_I [offset e; size e] ;;
  Ok (hd ++ name_padded).

(** ** PacArchive: reading an archive *)

Record PacArchive : Type := {
  entries_count : Z;
  entries : list PacEntry
}.

Fixpoint read_entries (n : nat) (f : BinaryIO) : result (list PacEntry * BinaryIO) :=
  match n with
  | O => Ok ([], f)
  | S n' =>
      '(e, f) <- PacEntry_from_file f ;;
      '(es, f) <- read_entries n' f ;;
      Ok (e :: es, f)
  end.

(** [PacArchive.from_file], on the content of the file. *)
Definition PacArchive_from_file (file : bytes) : result PacArchive :=
  let f := {| content := file; position := 0 |} in
  let '(entries_count_data, f) := f_read 4 f in
  if Nat.ltb (List.length entries_count_data) 4 then Raise ValueError else
  l <- struct_unpack_I 1 entries_count_data ;;
  '(es, _) <- read_entries (Z.to_nat (item 0 l)) f ;;
  Ok {| entries_count := item 0 l; entries := es |}.

(** ** PacArchiveBuilder *)

(** [PacFile()], the default of a fresh entry. *)
Definition PacFile_init : PacFile :=
  {| file_type := other; data := []; uncompressed_size := 0 |}.

(** [PacArchiveBuilder.add_entry]: the builder's entries afterwards. *)
Definition add_entry (builder : list PacEntry) (fd : PacFile) (nm : text)
  : result (list PacEntry) :=
  match sj_encode nm with
  | None => Raise UnicodeEncodeError
  | Some e =>
      if Nat.leb ENTRY_NAME_SIZE (List.length e) then Raise ValueError
      else Ok (builder ++ [ {| offset := 0; size := 0; name := nm; file_data := fd |} ])
  end.

(** The first pass of [pack]: every entry gets its offset and size, and
    its header is taken with them. *)
Fixpoint pack_headers (es : list PacEntry) (current_offset : Z)
  : result (list PacEntry * list bytes) :=
  match es with
  | [] => Ok ([], [])
  | e :: rest =>
      file_bytes <- PacFile_to_bytes (file_data e) ;;
      let e' := {| offset := current_offset;
                   size := Z.of_nat (List.length file_bytes);
                   name := name e; file_data := file_data e |} in
      h <- PacEntry_to_bytes e' ;;
      '(rest', hs) <- pack_headers rest (current_offset + size e') ;;
      Ok (e' :: rest', h :: hs)
  end.

(** The second pass of [pack]: the file data, in order. *)
Fixpoint pack_data (es : list PacEntry) : result bytes :=
  match es with
  | [] => Ok []
  | e :: rest =>
      file_bytes <- PacFile_to_bytes (file_data e) ;;
      tl <- pack_data rest ;;
      Ok (file_bytes ++ tl)
  end.

(** [PacArchiveBuilder.pack]: the entries as the builder holds them
    afterwards, and the bytes written to the archive. *)
Definition pack (es : list PacEntry) : result (list PacEntry * bytes) :=
  cnt <- struct_pack_I [Z.of_nat (List.length es)] ;;
  let current_offset := 4 + Z.of_nat ENTRY_HEADER_SIZE * Z.of_nat (List.length es) in
  '(es', headers) <- pack_headers es current_offset ;;
  body <- pack_data es' ;;
  Ok (es', cnt ++ concat headers ++ body).

End Codec.

(** ** Concrete libraries, to run the tool on concrete bytes *)

(** The single-byte plane of CPython's [shift_jis] codec: ASCII, and the
    half-width katakana of JIS X 0201 (bytes A1..DF, U+FF61..U+FF9F). The
    encoder also sends the yen sign U+00A5 to 5C and the overline U+203E to
    7E. The bytes 80, A0 and FD..FF are never valid. The double-byte
    characters of JIS X 0208 are outside this fragment: their lead bytes
    (81..9F, E0..FC) are reported as undecodable and their code points as
    unencodable, so the fragment agrees with the codec on every input
    without them. *)
Module X0201.

Definition decode_byte (b : byte) : option Z :=
  let c := byte.unsigned b in
  if c <? 128 then Some c
  else if (161 <=? c) && (c <=? 223) then Some (c + 65216)
  else None.

Definition encode_char (c : Z) : option byte :=
  if (0 <=? c) && (c <? 128) then Some (byte.of_Z c)
  else if c =? 165 then Some x5c
  else if c =? 8254 then Some x7e
  else if (65377 <=? c) && (c <=? 65439) then Some (byte.of_Z (c - 65216))
  else None.

(** U+FFFD REPLACEMENT CHARACTER, and [b"?"]. *)
Definition replacement_char : Z := 65533.
Definition question_mark : byte := x3f.

Fixpoint decode (b : bytes) : option text :=
  match b with
  | [] => Some []
  | x :: rest =>
      match decode_byte x, decode rest with
      | Some c, Some s => Some (c :: s)
      | _, _ => None
      end
  end.

Definition decode_replace (b : bytes) : text :=
  map (fun x => match decode_byte x with
                | Some c => c
                | None => replacement_char
                end) b.

Fixpoint encode (s : text) : option bytes :=
  match s with
  | [] => Some []
  | c :: rest =>
      match encode_char c, encode rest with
      | Some x, Some b => Some (x :: b)
      | _, _ => None
      end
  end.

Definition encode_replace (s : text) : bytes :=
  map (fun c => match encode_char c with
                | Some x => x
                | None => question_mark
                end) s.

Definition codec : ShiftJis :=
  {| sj_encode := encode; sj_encode_replace := encode_replace;
     sj_decode := decode; sj_decode_replace := decode_replace |}.

End X0201.

(** A stand-in for [zlib] that stores the data as it is; it satisfies the
    one law the proofs ask of [zlib]. *)
Definition stored_zlib : Zlib :=
  {| zlib_compress := fun b => b; zlib_decompress := fun b => Some b |}.

(** A [json] library that parses nothing; the statements below that run
    the tool never reach it. *)
Definition no_json : Json :=
  {| json_loads := fun _ => None; json_dumps := fun _ => [] |}.

(** ** The layout of a packed archive *)

Section LayoutDefs.
Context {SJ : ShiftJis}.

(** [p] is the packed form of the file of entry [e]. *)
Definition packs_to (e : PacEntry) (p : bytes) : Prop :=
  PacFile_to_bytes (file_data e) = Ok p.

(** Entry [e'] of the packed archive is entry [e] placed at [off], with
    the packed bytes [p]. *)
Definition placed (e e' : PacEntry) (p : bytes) (off : Z) : Prop :=
  name e' = name e /\ file_data e' = file_data e /\
  offset e' = off /\ size e' = Z.of_nat (length p).

(** The archive [out] and its entries [es'] are laid out from the entries
    [es]: entry [i] is placed after the header block, of
    [4 + 64 * len(es)] bytes, and the packed files before it; [out] is the
    count, the headers of 64 bytes and the packed files, in this order. *)
Definition laid_out (es es' : list PacEntry) (out : bytes) : Prop :=
  exists ps hs,
    Forall2 packs_to es ps /\
    Forall2 (fun e' h => PacEntry_to_bytes e' = Ok h /\ length h = 64%nat) es' hs /\
    length es' = length es /\
    (forall i e', nth_error es' i = Some e' ->
       exists e p, nth_error es i = Some e /\ nth_error ps i = Some p /\
         placed e e' p (4 + 64 * Z.of_nat (length es)
                        + Z.of_nat (length (concat (firstn i ps))))) /\
    out = le_split 4 (Z.of_nat (length es)) ++ concat hs ++ concat ps.

End LayoutDefs.

(** ** The bytes an animation declares *)

(** The bytes a name declares at the start of [buf]: the four bytes of
    its length [L] and the [L] bytes after them, when they are all
    there. *)
Definition field_span (buf : bytes) : option nat :=
  if Nat.leb 4 (length buf) then
    let L := Z.to_nat (le_combine (firstn 4 buf)) in
    if Nat.leb (4 + L) (length buf) then Some (4 + L)%nat else None
  else None.

(** The bytes a frame declares at the start of [buf]: three names and
    twenty bytes of integers, when they are all there. *)
Definition frame_span (buf : bytes) : option nat :=
  match field_span buf with
  | None => None
  | Some a =>
      match field_span (skipn a buf) with
      | None => None
      | Some b =>
          match field_span (skipn (a + b) buf) with
          | None => None
          | Some c =>
              if Nat.leb (a + b + c + 20) (length buf)
              then Some (a + b + c + 20)%nat else None
          end
      end
  end.

(** The bytes [n] frames in a row declare. *)
Fixpoint frames_span (n : nat) (buf : bytes) : option nat :=
  match n with
  | O => Some 0%nat
  | S n' =>
      match frame_span buf with
      | None => None
      | Some k =>
          match frames_span n' (skipn k buf) with
          | None => None
          | Some rest => Some (k + rest)%nat
          end
      end
  end.

(** The bytes an animation declares: its header of sixteen bytes and the
    frames its second word counts. [None]: the bytes end before that. *)
Definition document_span (buf : bytes) : option nat :=
  if Nat.leb 16 (length buf) then
    let count := Z.to_nat (le_combine (slice 4 8 buf)) in
    match frames_span count (skipn 16 buf) with
    | None => None
    | Some k => Some (16 + k)%nat
    end
  else None.

(** ** Well-formed animations *)

Section WellFormed.
Context {SJ : ShiftJis}.

(** The text has a strict encoding that decodes back to it, short enough
    for its length to fit the prefix. *)
Definition text_round_trips (s : text) : Prop :=
  exists e, sj_encode s = Some e /\ sj_decode e = Some s /\
            Z.of_nat (length e) < 2 ^ 32.

Definition u32 (z : Z) : Prop := 0 <= z < 2 ^ 32.

Definition frame_well_formed (f : TtpFrame) : Prop :=
  text_round_trips (value (sprite_name f)) /\
  text_round_trips (value (se_name f)) /\
  text_round_trips (value (textbox_name f)) /\
  u32 (delay_ms f) /\ u32 (x_offset_textbox f) /\ u32 (y_offset_textbox f) /\
  u32 (x_offset f) /\ u32 (y_offset f).

(** The declared count is the number of frames, the integers fit their
    fields, the names round-trip, and the optional byte is set only in an
    animation of type 3. *)
Definition document_well_formed (t : TtpFile) : Prop :=
  frame_count t = Z.of_nat (length (frames t)) /\
  u32 (maybe_ttp_type t) /\ u32 (frame_count t) /\
  u32 (window_width t) /\ u32 (window_height t) /\
  Forall frame_well_formed (frames t) /\
  match onetime_wakeup_dont_play_sound t with
  | None => True
  | Some v => maybe_ttp_type t = 3 /\ 0 <= v < 2 ^ 8
  end.

End WellFormed.

(** The bytes of a name: its length on four bytes, then the name. *)
Definition name_bytes (e : bytes) : bytes := le_split 4 (Z.of_nat (length e)) ++ e.

(** ** Concrete inputs *)

(** An editable document that declares five frames and lists none. *)
Definition stale_count_document : json :=
  JObj [ ("maybe_ttp_type"%string, JInt 0);
         ("frame_count"%string, JInt 5);
         ("window_width"%string, JInt 640);
         ("window_height"%string, JInt 480);
         ("frames"%string, JArr []) ].

(** [b"ZLC3" + struct.pack("<I", 9) + b"\x01\x02"]. *)
Definition zlc3_payload : bytes := ZLC3 ++ le_split 4 9 ++ [x01; x02].

(** [b"ZLC3\x01"]: the marker, and one byte where the size should be. *)
Definition zlc3_short : bytes := ZLC3 ++ [x01].

(** Sixteen zero bytes: the header of an animation without frames. *)
Definition empty_animation : bytes := repeat x00 16.

(** Fifteen zero bytes: one byte short of an animation header. *)
Definition short_header : bytes := repeat x00 15.

(** An entry whose name has sixty letters. *)
Definition long_name_entry : PacEntry :=
  {| offset := 1; size := 2; name := repeat 65 60; file_data := PacFile_init |}.

(** A builder with a compressed bitmap [a] and a plain file [b]. *)
Definition two_entries : list PacEntry :=
  [ {| offset := 0; size := 0; name := [97];
       file_data := {| file_type := bmz; data := [x01]; uncompressed_size := 7 |} |};
    {| offset := 0; size := 0; name := [98];
       file_data := {| file_type := other; data := [x02; x03]; uncompressed_size := 0 |} |} ].

(** A frame with the given sprite name and nothing else. *)
Definition frame_named (s : text) : TtpFrame :=
  {| sprite_name := {| value := s |};
     se_name := {| value := [] |};
     textbox_name := {| value := [] |};
     delay_ms := 100; x_offset_textbox := 0; y_offset_textbox := 0;
     x_offset := 0; y_offset := 0 |}.

(** An animation of one frame whose sprite is named [s]. *)
Definition one_frame_document (s : text) : TtpFile :=
  {| maybe_ttp_type := 3; frame_count := 1; window_width := 640;
     window_height := 480; frames := [frame_named s];
     onetime_wakeup_dont_play_sound := Some 1 |}.

(** An animation of type 0 with the optional byte set. *)
Definition flagged_document : TtpFile :=
  {| maybe_ttp_type := 0; frame_count := 0; window_width := 640;
     window_height := 480; frames := [];
     onetime_wakeup_dont_play_sound := Some 1 |}.

(** A frame whose sprite name declares one byte, 0x80, which is not valid
    in the encoding; the other names are empty. 33 bytes. *)
Definition invalid_name_frame : bytes :=
  le_split 4 1 ++ [x80] ++ le_split 4 0 ++ le_split 4 0 ++ repeat x00 20.

(** A frame cut in its first name: five bytes declared, one present. *)
Definition cut_name : bytes := le_split 4 5 ++ [x41].

(** An animation header that counts one frame, and nothing after it. *)
Definition cut_document : bytes :=
  le_split 4 0 ++ le_split 4 1 ++ le_split 4 640 ++ le_split 4 480.

(** An entry header cut in its name field: the offset 68, the size 12,
    and two bytes of name, at the end of the file. *)
Definition cut_entry_header : bytes := le_split 4 68 ++ le_split 4 12 ++ [x61; x62].

(** An archive of one entry that ends inside the header of that entry. *)
Definition cut_archive : bytes := le_split 4 1 ++ cut_entry_header.

(** ** Extensions of packed and extracted files *)

(** [PacFile.original_ext]: the packed extension of an extracted one. *)
Definition original_ext (conv_ext : string) : string :=
  if String.eqb conv_ext "bmp" then "bmz"%string
  else if String.eqb conv_ext "json" then "ttp"%string
  else conv_ext.

(** [PacFile.converted_ext]: the extracted extension of a packed one. *)
Definition converted_ext (orig_ext : string) : string :=
  if String.eqb orig_ext "bmz" then "bmp"%string
  else if String.eqb orig_ext "ttp" then "json"%string
  else orig_ext.

(** The keys [TtpFile.from_dict] and [TtpFrame.from_dict] index with. *)
Definition TtpFile_keys : list string :=
  ["maybe_ttp_type"; "frame_count"; "window_width"; "window_height"; "frames"]%string.

Definition TtpFrame_keys : list string :=
  ["sprite_name"; "se_name"; "textbox_name"; "delay_ms"; "x_offset_textbox";
   "y_offset_textbox"; "x_offset"; "y_offset"]%string.

(** The keys of a parsed object. *)
Definition keys (kv : list (string * json)) : list string := map fst kv.

(** ** Names as the tool encodes and reads them *)

Section Lenient.
Context {SJ : ShiftJis}.

(** The encoding [ResName.to_bytes] writes: the strict one, or the one
    with replacements when the strict one raises. *)
Definition lenient_encode (s : text) : bytes :=
  match sj_encode s with
  | Some e => e
  | None => sj_encode_replace s
  end.

(** The decoding [ResName.from_bytes] and [PacEntry.from_file] read. *)
Definition lenient_decode (b : bytes) : text :=
  match sj_decode b with
  | Some v => v
  | None => sj_decode_replace b
  end.

End Lenient.

(** One more fact of the codec, used where decoded text is encoded again:
    strictly decoded text encodes back to the bytes it came from (the
    codec is stateless and this holds of every character it decodes). *)
Class ShiftJisReencodes (C : ShiftJis) : Prop := {
  sj_reencode : forall b s, sj_decode b = Some s -> sj_encode s = Some b
}.

(** ** An encoded animation followed by other bytes *)

(** The animation [t] with its optional byte replaced. *)
Definition with_optional_byte (t : TtpFile) (v : option Z) : TtpFile :=
  {| maybe_ttp_type := maybe_ttp_type t; frame_count := frame_count t;
     window_width := window_width t; window_height := window_height t;
     frames := frames t; onetime_wakeup_dont_play_sound := v |}.

(** What decoding gives for the encoding of [t] followed by [extra]: an
    animation of type 3 without its optional byte takes the first byte of
    [extra] for it. *)
Definition decoded_before (t : TtpFile) (extra : bytes) : TtpFile :=
  match onetime_wakeup_dont_play_sound t, extra with
  | None, x :: _ =>
      if maybe_ttp_type t =? 3
      then with_optional_byte t (Some (byte.unsigned x))
      else t
  | _, _ => t
  end.

(** ** A packed archive read back *)

Section ReadBack.
Context {SJ : ShiftJis}.

(** [name_data[:null_pos]], or [name_data] when it has no zero byte. *)
Definition until_null (b : bytes) : bytes :=
  match find_null b with
  | Some i => firstn i b
  | None => b
  end.

(** The name read from the header that [PacEntry.to_bytes] writes for the
    name [nm]: at most 55 bytes of its encoding, up to the first zero
    byte, decoded. *)
Definition name_read (nm : text) : text :=
  lenient_decode (until_null (firstn 55 (sj_encode_replace nm))).

(** The entry read from the header of the packed entry [e'] and its
    packed file [p]. *)
Definition read_back (e' : PacEntry) (p : bytes) : result PacEntry :=
  fd <- PacFile_from_bytes p (length p) ;;
  Ok {| offset := offset e'; size := size e';
        name := name_read (name e'); file_data := fd |}.

Fixpoint read_back_all (es' : list PacEntry) (ps : list bytes)
  : result (list PacEntry) :=
  match es', ps with
  | e' :: r, p :: q =>
      e <- read_back e' p ;;
      l <- read_back_all r q ;;
      Ok (e :: l)
  | _, _ => Ok []
  end.

(** The entries [es'] carry the offsets and sizes of the packed files
    [ps] laid one after the other from [off] on. *)
Fixpoint placed_from (off : Z) (es' : list PacEntry) (ps : list bytes) : Prop :=
  match es', ps with
  | [], [] => True
  | e' :: r, p :: q =>
      offset e' = off /\ size e' = Z.of_nat (length p) /\
      placed_from (off + Z.of_nat (length p)) r q
  | _, _ => False
  end.

(** The entry is read back as it was packed. *)
Definition reads_back (e : PacEntry) (p : bytes) : Prop :=
  name_read (name e) = name e /\
  PacFile_from_bytes p (length p) = Ok (file_data e).

End ReadBack.

(** Two entries with the same name and the same file; their offsets and
    sizes may differ. *)
Definition same_content (e e' : PacEntry) : Prop :=
  name e' = name e /\ file_data e' = file_data e.

(** * Properties *)

(** ** [struct] and slices *)

Lemma is_u32_true z : is_u32 z = true <-> 0 <= z < 2 ^ 32.
Proof. unfold is_u32. rewrite andb_true_iff, Z.leb_le, Z.ltb_lt. tauto. Qed.

Lemma is_u8_true z : is_u8 z = true <-> 0 <= z < 2 ^ 8.
Proof. unfold is_u8. rewrite andb_true_iff, Z.leb_le, Z.ltb_lt. tauto. Qed.

Lemma le_combine_split_u32 z : 0 <= z < 2 ^ 32 -> le_combine (le_split 4 z) = z.
Proof.
  intros H. rewrite le_combine_split. apply Z.mod_small.
  change (Z.of_nat 4 * 8) with 32. exact H.
Qed.

Lemma bind_Ok {A B} (r : result A) (k : A -> result B) b :
  bind r k = Ok b -> exists a, r = Ok a /\ k a = Ok b.
Proof. destruct r as [a|e]; simpl; intros H; [eauto | discriminate]. Qed.

Ltac inv_bind H :=
  let a := fresh "a" in
  let Ha := fresh "Ha" in
  apply bind_Ok in H; destruct H as (a & Ha & H).

Lemma struct_pack_I_inv zs b :
  struct_pack_I zs = Ok b ->
  b = flat_map (le_split 4) zs /\ Forall (fun z => 0 <= z < 2 ^ 32) zs.
Proof.
  revert b. induction zs as [|z zs IH]; simpl; intros b H.
  - inversion H. split; [reflexivity | constructor].
  - destruct (is_u32 z) eqn:Hz; [|discriminate].
    inv_bind H. inversion H; subst. destruct (IH _ Ha) as [-> Hall].
    split; [reflexivity|]. constructor; [apply is_u32_true; exact Hz | exact Hall].
Qed.

Lemma struct_pack_I_ok zs :
  Forall (fun z => 0 <= z < 2 ^ 32) zs ->
  struct_pack_I zs = Ok (flat_map (le_split 4) zs).
Proof.
  induction 1 as [|z zs Hz _ IH]; simpl; [reflexivity|].
  apply is_u32_true in Hz. rewrite Hz, IH. reflexivity.
Qed.

Lemma flat_map_le_split_length zs :
  length (flat_map (le_split 4) zs) = (4 * length zs)%nat.
Proof.
  induction zs as [|z zs IH]; [reflexivity|].
  cbn [flat_map]. rewrite length_app, length_le_split, IH. simpl. lia.
Qed.

Lemma unpack_words_pack zs rest :
  Forall (fun z => 0 <= z < 2 ^ 32) zs ->
  unpack_words (length zs) (flat_map (le_split 4) zs ++ rest) = zs.
Proof.
  induction 1 as [|z zs Hz _ IH]; [reflexivity|].
  cbn [flat_map length unpack_words]. rewrite <- app_assoc.
  rewrite firstn_app, length_le_split, Nat.sub_diag, firstn_O, app_nil_r.
  rewrite firstn_all2 by (rewrite length_le_split; lia).
  rewrite le_combine_split_u32 by exact Hz.
  rewrite skipn_app, length_le_split, Nat.sub_diag, skipn_O.
  rewrite skipn_all2 by (rewrite length_le_split; lia).
  simpl app. rewrite IH. reflexivity.
Qed.

Lemma struct_unpack_pack zs :
  Forall (fun z => 0 <= z < 2 ^ 32) zs ->
  struct_unpack_I (length zs) (flat_map (le_split 4) zs) = Ok zs.
Proof.
  intros H. unfold struct_unpack_I.
  rewrite flat_map_le_split_length, Nat.eqb_refl.
  rewrite <- (app_nil_r (flat_map _ _)), unpack_words_pack by exact H. reflexivity.
Qed.

Lemma struct_unpack_I_inv n b l :
  struct_unpack_I n b = Ok l -> length b = (4 * n)%nat /\ l = unpack_words n b.
Proof.
  unfold struct_unpack_I. destruct (Nat.eqb_spec (length b) (4 * n)); intros H.
  - inversion H. auto.
  - discriminate.
Qed.

Lemma length_slice lo hi (b : bytes) :
  length (slice lo hi b) = Nat.min (hi - lo) (length b - lo).
Proof. unfold slice. rewrite length_firstn, length_skipn. reflexivity. Qed.

Lemma slice_0_app (a b : bytes) : slice 0 (length a) (a ++ b) = a.
Proof.
  unfold slice. rewrite skipn_O, Nat.sub_0_r, firstn_app, Nat.sub_diag, firstn_O, app_nil_r.
  apply firstn_all.
Qed.

Lemma slice_app_r (a b : bytes) n :
  slice (length a) (length a + n) (a ++ b) = firstn n b.
Proof.
  unfold slice. rewrite skipn_app, Nat.sub_diag, skipn_O, skipn_all. simpl.
  f_equal. lia.
Qed.

(** ** The concrete codec satisfies the laws *)

Module X0201Facts.
Import X0201.

Lemma decode_byte_encodable x c :
  decode_byte x = Some c -> exists y, encode_char c = Some y.
Proof.
  unfold decode_byte, encode_char.
  pose proof (byte.unsigned_range x) as Hr. change (2 ^ 8) with 256 in Hr.
  destruct (Z.ltb_spec (byte.unsigned x) 128).
  - intros [= <-].
    destruct (Z.leb_spec 0 (byte.unsigned x)); [|lia].
    destruct (Z.ltb_spec (byte.unsigned x) 128); [|lia]. simpl. eauto.
  - destruct (Z.leb_spec 161 (byte.unsigned x)); simpl; [|discriminate].
    destruct (Z.leb_spec (byte.unsigned x) 223); simpl; [|discriminate].
    intros [= <-].
    destruct (Z.ltb_spec (byte.unsigned x + 65216) 128); [lia|].
    rewrite andb_false_r.
    destruct (Z.eqb_spec (byte.unsigned x + 65216) 165); [lia|].
    destruct (Z.eqb_spec (byte.unsigned x + 65216) 8254); [lia|].
    destruct (Z.leb_spec 65377 (byte.unsigned x + 65216)); [|lia].
    destruct (Z.leb_spec (byte.unsigned x + 65216) 65439); [|lia].
    simpl. eauto.
Qed.

Lemma replace_agrees s : forall b, encode s = Some b -> encode_replace s = b.
Proof.
  induction s as [|c s IH]; simpl; intros b H.
  - inversion H. reflexivity.
  - destruct (encode_char c); [|discriminate].
    destruct (encode s); [|discriminate].
    inversion H. f_equal. apply IH. reflexivity.
Qed.

Lemma reencode_length b : forall s, decode b = Some s ->
  exists b', encode s = Some b' /\ length b' = length b.
Proof.
  induction b as [|x b IH]; simpl; intros s H.
  - inversion H. exists []. auto.
  - destruct (decode_byte x) as [c|] eqn:Hx; [|discriminate].
    destruct (decode b) as [s'|]; [|discriminate].
    inversion H; subst. destruct (IH _ eq_refl) as (b' & Hb' & Hlen).
    destruct (decode_byte_encodable _ _ Hx) as (y & Hy).
    exists (y :: b'). simpl. rewrite Hy, Hb', Hlen. auto.
Qed.

Lemma replaced_unencodable b :
  decode b = None -> encode (decode_replace b) = None.
Proof.
  induction b as [|x b IH]; simpl; intros H; [discriminate|].
  destruct (decode_byte x) as [c|] eqn:Hx.
  - destruct (decode b); [discriminate|].
    rewrite (IH eq_refl). destruct (encode_char c); reflexivity.
  - reflexivity.
Qed.

Lemma laws : ShiftJisLaws codec.
Proof.
  constructor.
  - exact replace_agrees.
  - exact reencode_length.
  - exact replaced_unencodable.
Qed.

End X0201Facts.

Lemma stored_zlib_laws : ZlibLaws stored_zlib.
Proof. constructor. reflexivity. Qed.

(** ** The header of an encoded animation *)

Section Animation.
Context {SJ : ShiftJis}.

Lemma TtpFile_to_bytes_header t b :
  TtpFile_to_bytes t = Ok b ->
  struct_unpack_I 4 (slice 0 16 b)
  = Ok [maybe_ttp_type t; frame_count t; window_width t; window_height t].
Proof.
  unfold TtpFile_to_bytes. intros H.
  inv_bind H. rename a into header. inv_bind H. inv_bind H. inversion H; subst b.
  apply struct_pack_I_inv in Ha. destruct Ha as [-> Hall].
  change 16%nat with (length [maybe_ttp_type t; frame_count t; window_width t; window_height t] * 4)%nat.
  replace (length [maybe_ttp_type t; frame_count t; window_width t; window_height t] * 4)%nat
    with (length (flat_map (le_split 4) [maybe_ttp_type t; frame_count t; window_width t; window_height t]))
    by (rewrite flat_map_le_split_length; reflexivity).
  rewrite slice_0_app. apply (struct_unpack_pack _ Hall).
Qed.

Lemma int_field_frame_count d t :
  TtpFile_from_dict d = Ok t -> int_field "frame_count" d = Ok (frame_count t).
Proof.
  unfold TtpFile_from_dict. intros H.
  inv_bind H. inv_bind H. rewrite Ha0.
  repeat inv_bind H. inversion H. reflexivity.
Qed.

(** C1, as the code has it: [TtpFile.to_bytes] writes the stored
    [frame_count] in the second word of the header, whatever the length of
    the frame list; a document read by [TtpFile.from_dict] therefore packs
    with the frame count its text declares. *)
Theorem TtpFile_to_bytes_writes_stored_frame_count t b :
  TtpFile_to_bytes t = Ok b ->
  exists header,
    struct_unpack_I 4 (slice 0 16 b) = Ok header /\
    item 1 header = frame_count t /\
    forall d, TtpFile_from_dict d = Ok t ->
              int_field "frame_count" d = Ok (item 1 header).
Proof.
  intros H. eexists. split; [apply TtpFile_to_bytes_header; exact H|].
  split; [reflexivity|]. intros d Hd. apply int_field_frame_count. exact Hd.
Qed.

End Animation.

Lemma TtpFile_to_bytes_writes_stored_frame_count_witness :
  let t := {| maybe_ttp_type := 0; frame_count := 5; window_width := 640;
              window_height := 480; frames := [];
              onetime_wakeup_dont_play_sound := None |} in
  exists b,
    @TtpFile_to_bytes X0201.codec t = Ok b /\
    exists header,
      struct_unpack_I 4 (slice 0 16 b) = Ok header /\
      item 1 header = 5 /\
      forall d, TtpFile_from_dict d = Ok t ->
                int_field "frame_count" d = Ok (item 1 header).
Proof.
  intros t. eexists. split; [reflexivity|].
  apply (@TtpFile_to_bytes_writes_stored_frame_count X0201.codec t). reflexivity.
Defined.

(** C1 as stated fails: [stale_count_document] has an empty frame list,
    and the header of its packed form carries the declared count 5, not
    0. *)
Lemma frame_count_not_recomputed :
  exists t b header,
    TtpFile_from_dict stale_count_document = Ok t /\
    @TtpFile_to_bytes X0201.codec t = Ok b /\
    struct_unpack_I 4 (slice 0 16 b) = Ok header /\
    item 1 header = 5 /\
    Z.of_nat (length (frames t)) = 0 /\
    item 1 header <> Z.of_nat (length (frames t)).
Proof.
  do 3 eexists. split; [reflexivity|]. split; [reflexivity|].
  split; [reflexivity|]. split; [reflexivity|]. split; [reflexivity|].
  discriminate.
Qed.

(** ** Classification of a payload *)

Section Classification.
Context {SJ : ShiftJis}.

Lemma startswith_length prefix buf :
  startswith prefix buf = true -> (length prefix <= length buf)%nat.
Proof.
  unfold startswith, bytes_eqb.
  destruct (list_eq_dec _ _ _) as [E|]; [|discriminate]. intros _.
  rewrite <- E at 1. rewrite length_firstn. lia.
Qed.

Lemma unpack_one b : length b = 4%nat -> struct_unpack_I 1 b = Ok [le_combine b].
Proof.
  intros H. unfold struct_unpack_I. rewrite H.
  change (Nat.eqb 4 (4 * 1)) with true. cbn [unpack_words].
  rewrite firstn_all2 by lia. reflexivity.
Qed.

(** The branches of [PacFile.from_bytes]. A payload that starts with
    [ZLC3] and has the four bytes of the size after it is a [bmz] file,
    with the size read from bytes 4..8 and the data [buf[8:size]]; with
    fewer than eight bytes the size cannot be unpacked. Any other payload
    is a [ttp] file when [buf[:size]] decodes as an animation, and [other]
    when that decoding raises; its data is [buf[:size]]. *)
Lemma PacFile_from_bytes_branches (buf : bytes) (size : nat) :
  (startswith ZLC3 buf = true -> (8 <= length buf)%nat ->
     PacFile_from_bytes buf size
     = Ok {| file_type := bmz;
             data := slice 8 size buf;
             uncompressed_size := le_combine (slice 4 8 buf) |} /\
     length (slice 8 size buf) = (Nat.min size (length buf) - 8)%nat) /\
  (startswith ZLC3 buf = true -> (length buf < 8)%nat ->
     PacFile_from_bytes buf size = Raise struct_error) /\
  (startswith ZLC3 buf = false ->
     exists p, PacFile_from_bytes buf size = Ok p /\
               data p = slice 0 size buf /\
               (file_type p = ttp <-> returns (TtpFile_from_bytes (slice 0 size buf))) /\
               (file_type p = other <-> raises (TtpFile_from_bytes (slice 0 size buf)))).
Proof.
  unfold PacFile_from_bytes. repeat split.
  - rewrite H. rewrite unpack_one by (rewrite length_slice; lia). reflexivity.
  - rewrite length_slice. lia.
  - intros Hs Hlen. rewrite Hs. unfold struct_unpack_I.
    rewrite length_slice.
    destruct (Nat.eqb_spec (Nat.min (8 - 4) (length buf - 4)) (4 * 1)); [lia|reflexivity].
  - intros Hs. rewrite Hs, orb_true_r.
    destruct (TtpFile_from_bytes (slice 0 size buf)) as [t|e] eqn:Hd;
      eexists; (split; [reflexivity|]); simpl; (split; [reflexivity|]);
      unfold returns, raises; split; split;
      try discriminate; try reflexivity; eauto;
      intros [x Hx]; discriminate.
Qed.

End Classification.

Lemma PacFile_from_bytes_branches_examples :
  (@PacFile_from_bytes X0201.codec zlc3_payload 10
   = Ok {| file_type := bmz; data := [x01; x02]; uncompressed_size := 9 |}) /\
  (@PacFile_from_bytes X0201.codec zlc3_short 5 = Raise struct_error) /\
  (exists p, @PacFile_from_bytes X0201.codec empty_animation 16 = Ok p /\
             file_type p = ttp) /\
  (exists p, @PacFile_from_bytes X0201.codec short_header 15 = Ok p /\
             file_type p = other).
Proof.
  split; [|split; [|split]].
  - apply (@PacFile_from_bytes_branches X0201.codec zlc3_payload 10);
      [reflexivity | simpl; lia].
  - apply (@PacFile_from_bytes_branches X0201.codec zlc3_short 5);
      [reflexivity | simpl; lia].
  - destruct (@PacFile_from_bytes_branches X0201.codec empty_animation 16)
      as (_ & _ & H).
    destruct (H eq_refl) as (p & Hp & _ & Ht & _).
    exists p. split; [exact Hp|]. apply Ht. eexists. reflexivity.
  - destruct (@PacFile_from_bytes_branches X0201.codec short_header 15)
      as (_ & _ & H).
    destruct (H eq_refl) as (p & Hp & _ & _ & Ho).
    exists p. split; [exact Hp|]. apply Ho. eexists. reflexivity.
Defined.

(** C2 as stated fails: a payload of five bytes that starts with [ZLC3]
    is not classified at all, the size after the marker cannot be read. *)
Lemma zlc3_prefix_not_always_classified :
  startswith ZLC3 zlc3_short = true /\
  ~ returns (@PacFile_from_bytes X0201.codec zlc3_short 5).
Proof.
  split; [reflexivity|]. intros [p Hp]. discriminate Hp.
Qed.

(** ** Entry headers and entry names *)

Section Entries.
Context {SJ : ShiftJis}.

Lemma slice_0 n (b : bytes) : slice 0 n b = firstn n b.
Proof. unfold slice. rewrite skipn_O, Nat.sub_0_r. reflexivity. Qed.

Lemma name_field_length (enc : bytes) :
  length (slice 0 (ENTRY_NAME_SIZE - 1) enc
          ++ repeat x00 (ENTRY_NAME_SIZE - length (slice 0 (ENTRY_NAME_SIZE - 1) enc)))
  = ENTRY_NAME_SIZE.
Proof.
  rewrite length_app, repeat_length, length_slice.
  unfold ENTRY_NAME_SIZE. lia.
Qed.

Lemma PacEntry_to_bytes_inv (e : PacEntry) (h : bytes) :
  PacEntry_to_bytes e = Ok h ->
  exists name_field,
    h = le_split 4 (offset e) ++ le_split 4 (size e) ++ name_field /\
    name_field
    = firstn 55 (sj_encode_replace (name e))
      ++ repeat x00 (56 - Nat.min 55 (length (sj_encode_replace (name e)))) /\
    length name_field = 56%nat /\
    length h = 64%nat.
Proof.
  unfold PacEntry_to_bytes.
  pose proof (name_field_length (sj_encode_replace (name e))) as Hlen.
  set (nf := slice 0 _ _ ++ repeat _ _) in *.
  intros H. inv_bind H. injection H as <-.
  apply struct_pack_I_inv in Ha. destruct Ha as [-> _].
  exists nf. split; [cbn [flat_map]; rewrite app_nil_r, <- app_assoc; reflexivity|].
  split; [subst nf; rewrite slice_0, length_firstn; reflexivity|].
  split; [exact Hlen|].
  rewrite length_app, flat_map_le_split_length, Hlen. reflexivity.
Qed.

Lemma PacEntry_to_bytes_returns (e : PacEntry) :
  is_u32 (offset e) = true -> is_u32 (size e) = true ->
  returns (PacEntry_to_bytes e).
Proof.
  intros Ho Hs. unfold PacEntry_to_bytes. cbn [struct_pack_I].
  rewrite Ho, Hs. simpl. eexists. reflexivity.
Qed.

(** C10: the header of an entry is 64 bytes, whatever its name: the
    offset, the size, and a name field of exactly 56 bytes, made of at most
    55 bytes of the encoded name and zero bytes after them. *)
Theorem PacEntry_to_bytes_is_64_bytes (e : PacEntry) :
  (is_u32 (offset e) = true -> is_u32 (size e) = true ->
   returns (PacEntry_to_bytes e)) /\
  (forall h, PacEntry_to_bytes e = Ok h ->
     exists name_field,
       h = le_split 4 (offset e) ++ le_split 4 (size e) ++ name_field /\
       name_field
       = firstn 55 (sj_encode_replace (name e))
         ++ repeat x00 (56 - Nat.min 55 (length (sj_encode_replace (name e)))) /\
       length name_field = 56%nat /\
       length h = 64%nat).
Proof.
  split; [apply PacEntry_to_bytes_returns | apply PacEntry_to_bytes_inv].
Qed.

Context {SJL : ShiftJisLaws SJ}.

(** Names with a strict encoding: one of at most 55 bytes is added, and
    its header carries the whole encoded name; one of 56 bytes or more is
    refused with [ValueError] ("Too long entry name"), nothing is
    truncated. *)
Lemma add_entry_name_capacity (builder : list PacEntry) (fd : PacFile)
    (nm : text) (enc : bytes) :
  sj_encode nm = Some enc ->
  ((length enc <= 55)%nat ->
     add_entry builder fd nm
     = Ok (builder ++ [ {| offset := 0; size := 0; name := nm; file_data := fd |} ]) /\
     forall off sz, is_u32 off = true -> is_u32 sz = true ->
       PacEntry_to_bytes {| offset := off; size := sz; name := nm; file_data := fd |}
       = Ok (le_split 4 off ++ le_split 4 sz
             ++ enc ++ repeat x00 (56 - length enc))) /\
  ((56 <= length enc)%nat -> add_entry builder fd nm = Raise ValueError).
Proof.
  intros Henc. unfold add_entry. rewrite Henc. unfold ENTRY_NAME_SIZE. split.
  - intros Hlen. destruct (Nat.leb_spec 56 (length enc)); [lia|].
    split; [reflexivity|]. intros off sz Ho Hs.
    unfold PacEntry_to_bytes. cbn [struct_pack_I name offset size].
    rewrite Ho, Hs. cbn [bind].
    rewrite (sj_replace_agrees _ _ Henc), slice_0.
    unfold ENTRY_NAME_SIZE. rewrite firstn_all2 by lia.
    rewrite app_nil_r, <- app_assoc. reflexivity.
  - intros Hlen. destruct (Nat.leb_spec 56 (length enc)); [reflexivity|lia].
Qed.

End Entries.

Lemma PacEntry_to_bytes_is_64_bytes_witness :
  exists h, @PacEntry_to_bytes X0201.codec long_name_entry = Ok h /\
            length h = 64%nat /\
            skipn 62 h = [x41; x00].
Proof.
  destruct (@PacEntry_to_bytes_is_64_bytes X0201.codec long_name_entry) as [Hr Hs].
  exists (le_split 4 1 ++ le_split 4 2 ++ repeat x41 55 ++ [x00]).
  split; [reflexivity|]. split; [|reflexivity].
  destruct (Hs _ eq_refl) as (nf & _ & _ & _ & Hlen). exact Hlen.
Defined.

Lemma add_entry_name_capacity_examples :
  (@add_entry X0201.codec [] PacFile_init (repeat 65 55)
   = Ok [ {| offset := 0; size := 0; name := repeat 65 55; file_data := PacFile_init |} ]) /\
  (@add_entry X0201.codec [] PacFile_init (repeat 65 56) = Raise ValueError).
Proof.
  split.
  - apply (@add_entry_name_capacity X0201.codec X0201Facts.laws [] PacFile_init
             (repeat 65 55) (repeat x41 55) eq_refl).
    simpl. lia.
  - apply (@add_entry_name_capacity X0201.codec X0201Facts.laws [] PacFile_init
             (repeat 65 56) (repeat x41 56) eq_refl).
    simpl. lia.
Defined.

(** C8 fails on the code at the name [[233]] (U+00E9, a character the
    encoding does not have). Its encoded form, written with a replacement
    as [PacEntry.to_bytes] writes it in the header, is the one byte [?],
    far below the 55 the name field holds; [add_entry] measures the name
    with the strict encoding and raises [UnicodeEncodeError] instead of
    adding the entry. *)
Theorem add_entry_refuses_replaced_name :
  @sj_encode X0201.codec [233] = None /\
  @sj_encode_replace X0201.codec [233] = [x3f] /\
  @PacEntry_to_bytes X0201.codec
    {| offset := 0; size := 0; name := [233]; file_data := PacFile_init |}
  = Ok (le_split 4 0 ++ le_split 4 0 ++ [x3f] ++ repeat x00 55) /\
  @add_entry X0201.codec [] PacFile_init [233] = Raise UnicodeEncodeError.
Proof. repeat split. Qed.

(** ** The layout of a packed archive *)

Section Layout.
Context {SJ : ShiftJis}.

Lemma pack_headers_spec (es : list PacEntry) :
  forall off es' hs,
    pack_headers es off = Ok (es', hs) ->
    exists ps,
      Forall2 packs_to es ps /\
      Forall2 (fun e' h => PacEntry_to_bytes e' = Ok h /\ length h = 64%nat) es' hs /\
      length es' = length es /\
      pack_data es' = Ok (concat ps) /\
      forall i e', nth_error es' i = Some e' ->
        exists e p, nth_error es i = Some e /\ nth_error ps i = Some p /\
                    placed e e' p (off + Z.of_nat (length (concat (firstn i ps)))).
Proof.
  induction es as [|e es IH]; intros off es' hs H; cbn [pack_headers] in H.
  - injection H as <- <-. exists []. repeat split; try constructor.
    intros [|i] e' Hi; discriminate.
  - inv_bind H. rename a into p, Ha into Hp.
    inv_bind H. rename a into h, Ha into Hh.
    inv_bind H. destruct a as [rest' hs']. cbn in H. injection H as <- <-.
    cbn [size] in Ha. destruct (IH _ _ _ Ha) as (ps & Hps & Hhs & Hlen & Hdata & Hidx).
    exists (p :: ps). split; [constructor; assumption|].
    split.
    { constructor; [|exact Hhs]. split; [exact Hh|].
      destruct (PacEntry_to_bytes_inv _ _ Hh) as (nf & _ & _ & _ & L). exact L. }
    split; [cbn [length]; congruence|].
    split.
    { cbn [pack_data file_data]. rewrite Hp. cbn [bind]. rewrite Hdata. reflexivity. }
    intros [|i] e' Hi.
    + injection Hi as <-. exists e, p. cbn [nth_error firstn concat length].
      rewrite Z.add_0_r. repeat split.
    + cbn [nth_error] in Hi. destruct (Hidx _ _ Hi) as (e0 & p0 & He0 & Hp0 & Hn & Hf & Ho & Hs).
      exists e0, p0. cbn [nth_error firstn concat]. repeat split; try assumption.
      rewrite Ho, length_app. lia.
Qed.

Lemma pack_headers_returns (es : list PacEntry) :
  forall ps off,
    Forall2 packs_to es ps ->
    0 <= off ->
    off + Z.of_nat (length (concat ps)) < 2 ^ 32 ->
    returns (pack_headers es off).
Proof.
  induction es as [|e es IH]; intros ps off Hps Hoff Hend.
  - eexists. reflexivity.
  - inversion Hps as [|e0 p es0 ps0 Hp Hrest]; subst.
    cbn [concat] in Hend. rewrite length_app in Hend.
    cbn [pack_headers]. unfold packs_to in Hp. rewrite Hp. cbn [bind].
    destruct (PacEntry_to_bytes_returns
                {| offset := off; size := Z.of_nat (length p);
                   name := name e; file_data := file_data e |}) as [h Hh].
    { apply is_u32_true. cbn. lia. }
    { apply is_u32_true. cbn. lia. }
    rewrite Hh. cbn [bind size].
    destruct (IH ps0 (off + Z.of_nat (length p)) Hrest) as [[rest' hs'] Hr]; [lia|lia|].
    rewrite Hr. eexists. reflexivity.
Qed.

(** C3: after [pack], entry [i] sits at the end of the header block plus
    the packed lengths of the entries before it, its size is its packed
    length, and the archive is the count, the 64-byte headers and the
    packed files, each in the order of the entries. [pack] returns
    whenever the files pack and the archive stays below 4 GiB. *)
Theorem pack_offsets_and_stream (es : list PacEntry) :
  (forall ps, Forall2 packs_to es ps ->
     4 + 64 * Z.of_nat (length es) + Z.of_nat (length (concat ps)) < 2 ^ 32 ->
     returns (pack es)) /\
  (forall es' out, pack es = Ok (es', out) -> laid_out es es' out).
Proof.
  unfold pack. split.
  - intros ps Hps Hend. cbn [struct_pack_I].
    replace (is_u32 (Z.of_nat (length es))) with true
      by (symmetry; apply is_u32_true; lia).
    cbn [bind].
    destruct (pack_headers_returns es ps
                (4 + Z.of_nat ENTRY_HEADER_SIZE * Z.of_nat (length es)) Hps)
      as [[es' hs] Hh].
    { change (Z.of_nat ENTRY_HEADER_SIZE) with 64. lia. }
    { change (Z.of_nat ENTRY_HEADER_SIZE) with 64. lia. }
    rewrite Hh. cbn [bind].
    destruct (pack_headers_spec _ _ _ _ Hh) as (ps' & _ & _ & _ & Hdata & _).
    rewrite Hdata. eexists. reflexivity.
  - intros es' out H. unfold laid_out. inv_bind H. rename a into cnt, Ha into Hcnt.
    inv_bind H. destruct a as [es1 hs]. cbn in H. inv_bind H. injection H as <- <-.
    apply struct_pack_I_inv in Hcnt. destruct Hcnt as [-> _].
    destruct (pack_headers_spec _ _ _ _ Ha) as (ps & Hps & Hhs & Hlen & Hdata & Hidx).
    rewrite Hdata in Ha0. injection Ha0 as <-.
    exists ps, hs. repeat split; assumption.
Qed.

End Layout.

Lemma pack_offsets_and_stream_witness :
  exists es' out,
    @pack X0201.codec two_entries = Ok (es', out) /\
    @laid_out X0201.codec two_entries es' out /\
    map offset es' = [132; 141] /\
    map size es' = [9; 2] /\
    length out = 143%nat.
Proof.
  do 2 eexists. split; [reflexivity|].
  split; [apply (@pack_offsets_and_stream X0201.codec two_entries); reflexivity|].
  repeat split.
Defined.

(** ** Compressed bitmaps *)

Section Bitmaps.
Context {SJ : ShiftJis} {ZL : Zlib} {JS : Json} {ZLL : ZlibLaws ZL}.

(** C9: a compressed bitmap whose data inflate to [b] is extracted as
    [b]; converted back as a [bmp] and packed, it is the marker [ZLC3],
    the length of [b] on four bytes, and compressed data that inflate to
    [b] again. The length of [b] has to fit the four bytes. *)
Theorem bitmap_round_trip (b compressed : bytes) (declared : Z) :
  zlib_decompress compressed = Some b ->
  Z.of_nat (length b) < 2 ^ 32 ->
  exists editable p out,
    converted_data {| file_type := bmz; data := compressed;
                      uncompressed_size := declared |} = Ok editable /\
    convert_back editable "bmp" = Ok p /\
    PacFile_to_bytes p = Ok out /\
    out = ZLC3 ++ le_split 4 (Z.of_nat (length b)) ++ skipn 8 out /\
    le_combine (slice 4 8 out) = Z.of_nat (length b) /\
    zlib_decompress (skipn 8 out) = Some b.
Proof.
  intros Hb Hlen.
  exists b, {| file_type := bmz; data := zlib_compress b;
               uncompressed_size := Z.of_nat (length b) |},
         (ZLC3 ++ le_split 4 (Z.of_nat (length b)) ++ zlib_compress b).
  split; [unfold converted_data; cbn [file_type data]; rewrite Hb; reflexivity|].
  split; [reflexivity|].
  split.
  { unfold PacFile_to_bytes. cbn [file_type uncompressed_size data struct_pack_I].
    replace (is_u32 (Z.of_nat (length b))) with true
      by (symmetry; apply is_u32_true; lia).
    cbn [bind]. rewrite app_nil_r, <- app_assoc. reflexivity. }
  assert (Hskip : skipn 8 (ZLC3 ++ le_split 4 (Z.of_nat (length b)) ++ zlib_compress b)
                  = zlib_compress b) by reflexivity.
  rewrite Hskip. split; [reflexivity|]. split.
  - change (slice 4 8 (ZLC3 ++ le_split 4 (Z.of_nat (length b)) ++ zlib_compress b))
      with (le_split 4 (Z.of_nat (length b))).
    apply le_combine_split_u32. lia.
  - apply zlib_decompress_compress.
Qed.

End Bitmaps.

Lemma bitmap_round_trip_witness :
  exists editable p out,
    @converted_data X0201.codec stored_zlib no_json
      {| file_type := bmz; data := [x42; x4d; x00]; uncompressed_size := 3 |}
    = Ok editable /\
    @convert_back X0201.codec stored_zlib no_json editable "bmp" = Ok p /\
    @PacFile_to_bytes p = Ok out /\
    out = ZLC3 ++ le_split 4 3 ++ skipn 8 out /\
    @zlib_decompress stored_zlib (skipn 8 out) = Some [x42; x4d; x00].
Proof.
  destruct (@bitmap_round_trip X0201.codec stored_zlib no_json stored_zlib_laws
              [x42; x4d; x00] [x42; x4d; x00] 3 eq_refl)
    as (editable & p & out & H1 & H2 & H3 & H4 & _ & H6).
  - simpl. lia.
  - exists editable, p, out. repeat split; assumption.
Defined.

(** ** Truncated animations *)

Section Truncation.
Context {SJ : ShiftJis} {SJL : ShiftJisLaws SJ}.

Lemma struct_unpack_I_length n b l :
  struct_unpack_I n b = Ok l -> length b = (4 * n)%nat.
Proof. intros H. apply struct_unpack_I_inv in H. tauto. Qed.

(** The name read at the start of [buf], and the bytes the decoders step
    over for it: the length it declares, or what is left of [buf]. *)
Lemma ResName_from_bytes_len (buf : bytes) (r : ResName) (n : nat) :
  ResName_from_bytes buf = Ok r ->
  encoded_len r = Ok n ->
  (4 <= length buf)%nat /\
  n = Nat.min (Z.to_nat (le_combine (firstn 4 buf))) (length buf - 4).
Proof.
  unfold ResName_from_bytes, encoded_len. intros H Hn.
  inv_bind H. injection H as <-. cbn [value] in Hn.
  pose proof (struct_unpack_I_inv _ _ _ Ha) as [Hl ->].
  rewrite length_slice in Hl. split; [lia|].
  cbn [unpack_words item nth] in Hn.
  rewrite slice_0 in Hn. rewrite firstn_firstn in Hn. change (Nat.min 4 4) with 4%nat in Hn.
  set (L := Z.to_nat (le_combine (firstn 4 buf))) in *.
  change (S (S (S (S L)))) with (4 + L)%nat in Hn.
  destruct (sj_decode (slice 4 (4 + L) buf)) as [v|] eqn:Hd.
  - destruct (sj_reencode_length _ _ Hd) as (b' & Hb' & Hlen).
    rewrite Hb' in Hn. injection Hn as <-. rewrite Hlen, length_slice. lia.
  - rewrite (sj_replaced_unencodable _ Hd) in Hn. discriminate.
Qed.

Lemma field_span_next (buf : bytes) (r : ResName) (n : nat) :
  ResName_from_bytes buf = Ok r ->
  encoded_len r = Ok n ->
  (4 + n < length buf)%nat ->
  field_span buf = Some (4 + n)%nat.
Proof.
  intros Hr Hn Hmore. destruct (ResName_from_bytes_len _ _ _ Hr Hn) as [H4 ->].
  unfold field_span. destruct (Nat.leb_spec 4 (length buf)); [|lia].
  cbv zeta. set (L := Z.to_nat (le_combine (firstn 4 buf))) in *.
  destruct (Nat.leb_spec (4 + L) (length buf)); [f_equal; lia | lia].
Qed.

Lemma ResName_from_bytes_needs_4 (buf : bytes) (r : ResName) :
  ResName_from_bytes buf = Ok r -> (4 <= length buf)%nat.
Proof.
  unfold ResName_from_bytes. intros H. inv_bind H.
  apply struct_unpack_I_length in Ha. rewrite length_slice in Ha. lia.
Qed.

(** A frame that decodes has all its declared bytes in [buf], and the
    document decoder steps over exactly those. *)
Lemma TtpFrame_from_bytes_span (buf : bytes) (f : TtpFrame) :
  TtpFrame_from_bytes buf = Ok f ->
  exists k, frame_span buf = Some k /\ frame_advance f = Ok k /\ (k <= length buf)%nat.
Proof.
  unfold TtpFrame_from_bytes. intros H.
  inv_bind H. rename a into r1, Ha into Hr1.
  inv_bind H. rename a into n1, Ha into Hn1.
  inv_bind H. rename a into r2, Ha into Hr2.
  inv_bind H. rename a into n2, Ha into Hn2.
  inv_bind H. rename a into r3, Ha into Hr3.
  inv_bind H. rename a into n3, Ha into Hn3.
  inv_bind H. rename a into vals, Ha into Hv.
  injection H as <-.
  rewrite skipn_O in Hr1. cbn [Nat.add] in *.
  pose proof (ResName_from_bytes_needs_4 _ _ Hr2) as H2.
  pose proof (ResName_from_bytes_needs_4 _ _ Hr3) as H3.
  apply struct_unpack_I_length in Hv.
  rewrite length_slice in Hv. rewrite length_skipn in H2, H3.
  assert (F1 : field_span buf = Some (4 + n1)%nat)
    by (apply (field_span_next _ _ _ Hr1 Hn1); lia).
  assert (F2 : field_span (skipn (4 + n1) buf) = Some (4 + n2)%nat)
    by (apply (field_span_next _ _ _ Hr2 Hn2); rewrite length_skipn; lia).
  assert (F3 : field_span (skipn (4 + n1 + (4 + n2)) buf) = Some (4 + n3)%nat)
    by (apply (field_span_next _ _ _ Hr3 Hn3); rewrite length_skipn; lia).
  exists (4 + n1 + (4 + n2) + (4 + n3) + 20)%nat.
  split; [|split].
  - unfold frame_span. rewrite F1, F2, F3.
    destruct (Nat.leb_spec (4 + n1 + (4 + n2) + (4 + n3) + 20) (length buf)); [reflexivity|lia].
  - unfold frame_advance. cbn [sprite_name se_name textbox_name].
    rewrite Hn1, Hn2, Hn3. reflexivity.
  - lia.
Qed.

Lemma read_frames_span (n : nat) (buf : bytes) :
  forall pos frs pos',
    read_frames n buf pos = Ok (frs, pos') ->
    exists k, frames_span n (skipn pos buf) = Some k /\ pos' = (pos + k)%nat /\
              length frs = n.
Proof.
  induction n as [|n IH]; intros pos frs pos' H; cbn [read_frames] in H.
  - injection H as <- <-. exists 0%nat. repeat split. lia.
  - inv_bind H. rename a into f, Ha into Hf.
    inv_bind H. rename a into adv, Ha into Hadv.
    inv_bind H. destruct a as [rest p']. cbn in H. injection H as <- <-.
    destruct (TtpFrame_from_bytes_span _ _ Hf) as (k & Hk & Hadv' & _).
    rewrite Hadv in Hadv'. injection Hadv' as ->.
    destruct (IH _ _ _ Ha) as (k' & Hk' & -> & Hlen).
    exists (k + k')%nat. cbn [frames_span]. rewrite Hk, skipn_skipn.
    rewrite (Nat.add_comm k pos), Hk'. repeat split; [lia | cbn; lia].
Qed.

Lemma TtpFile_from_bytes_span (buf : bytes) (t : TtpFile) :
  TtpFile_from_bytes buf = Ok t ->
  exists k, document_span buf = Some k /\
            length (frames t) = Z.to_nat (frame_count t).
Proof.
  unfold TtpFile_from_bytes. intros H.
  inv_bind H. rename a into header, Ha into Hh.
  inv_bind H. destruct a as [frs pos]. cbn in H.
  inv_bind H. injection H as <-. cbn [frames frame_count].
  destruct (struct_unpack_I_inv _ _ _ Hh) as [Hlen ->].
  rewrite length_slice in Hlen.
  destruct (read_frames_span _ _ _ _ _ Ha) as (k & Hk & _ & Hn).
  exists (16 + k)%nat. split; [|exact Hn].
  unfold document_span. destruct (Nat.leb_spec 16 (length buf)); [|lia].
  cbv zeta.
  replace (le_combine (slice 4 8 buf))
    with (item 1 (unpack_words 4 (slice 0 16 buf))); [rewrite Hk; reflexivity|].
  cbn [unpack_words item nth]. f_equal.
  unfold slice. rewrite skipn_O, skipn_firstn_comm, firstn_firstn. reflexivity.
Qed.

(** A payload classified as an animation has all the bytes its header
    and frames declare. *)
Lemma ttp_payload_has_declared_bytes (buf : bytes) (size : nat) (p : PacFile) :
  PacFile_from_bytes buf size = Ok p ->
  file_type p = ttp ->
  exists k, document_span (data p) = Some k /\ data p = slice 0 size buf.
Proof.
  unfold PacFile_from_bytes. destruct (startswith ZLC3 buf).
  - intros H. inv_bind H. injection H as <-. discriminate.
  - rewrite orb_true_r.
    destruct (TtpFile_from_bytes (slice 0 size buf)) as [t|e] eqn:Hd;
      intros H; injection H as <-; cbn [file_type data]; [|discriminate].
    intros _. destruct (TtpFile_from_bytes_span _ _ Hd) as (k & Hk & _). eauto.
Qed.

Lemma not_Ok_raises {A} (r : result A) : (forall a, r <> Ok a) -> raises r.
Proof.
  destruct r as [a|e]; intros H; [destruct (H a eq_refl) | exists e; reflexivity].
Qed.

(** C6: decoding raises whenever the bytes end before what they declare.
    A frame: a length prefix, the bytes of a name or the twenty bytes of
    integers are cut short. An animation: the header or one of the frames
    it counts is cut short. *)
Theorem truncated_input_raises (buf : bytes) :
  (frame_span buf = None -> raises (TtpFrame_from_bytes buf)) /\
  (document_span buf = None -> raises (TtpFile_from_bytes buf)).
Proof.
  split; intros Hspan; apply not_Ok_raises; intros a Ha.
  - destruct (TtpFrame_from_bytes_span _ _ Ha) as (k & Hk & _). congruence.
  - destruct (TtpFile_from_bytes_span _ _ Ha) as (k & Hk & _). congruence.
Qed.

End Truncation.

Lemma truncated_input_raises_witness :
  raises (@TtpFrame_from_bytes X0201.codec cut_name) /\
  raises (@TtpFile_from_bytes X0201.codec cut_document).
Proof.
  split.
  - apply (@truncated_input_raises X0201.codec X0201Facts.laws cut_name). reflexivity.
  - apply (@truncated_input_raises X0201.codec X0201Facts.laws cut_document). reflexivity.
Defined.

Example cut_name_struct_error :
  @TtpFrame_from_bytes X0201.codec cut_name = Raise struct_error.
Proof. reflexivity. Qed.

Example cut_document_struct_error :
  @TtpFile_from_bytes X0201.codec cut_document = Raise struct_error.
Proof. reflexivity. Qed.

(** ** Classification, and the bytes an animation declares *)

Section ClassifiedAnimations.
Context {SJ : ShiftJis} {SJL : ShiftJisLaws SJ}.

Lemma field_span_le (buf : bytes) (a : nat) :
  field_span buf = Some a -> (a <= length buf)%nat.
Proof.
  unfold field_span. destruct (Nat.leb 4 (length buf)); [|discriminate].
  cbv zeta.
  destruct (Nat.leb_spec (4 + Z.to_nat (le_combine (firstn 4 buf))) (length buf));
    [|discriminate].
  intros [= <-]. assumption.
Qed.

Lemma frame_span_le (buf : bytes) (k : nat) :
  frame_span buf = Some k -> (k <= length buf)%nat.
Proof.
  unfold frame_span.
  destruct (field_span buf) as [a|]; [|discriminate].
  destruct (field_span (skipn a buf)) as [b|]; [|discriminate].
  destruct (field_span (skipn (a + b) buf)) as [c|]; [|discriminate].
  destruct (Nat.leb_spec (a + b + c + 20) (length buf)); [|discriminate].
  intros [= <-]. assumption.
Qed.

Lemma frames_span_le (n : nat) :
  forall buf k, frames_span n buf = Some k -> (k <= length buf)%nat.
Proof.
  induction n as [|n IH]; intros buf k; cbn [frames_span].
  - intros [= <-]. lia.
  - destruct (frame_span buf) as [a|] eqn:Ha; [|discriminate].
    destruct (frames_span n (skipn a buf)) as [r|] eqn:Hr; [|discriminate].
    intros [= <-]. apply frame_span_le in Ha. apply IH in Hr.
    rewrite length_skipn in Hr. lia.
Qed.

Lemma document_span_le (buf : bytes) (k : nat) :
  document_span buf = Some k -> (k <= length buf)%nat.
Proof.
  unfold document_span. destruct (Nat.leb_spec 16 (length buf)); [|discriminate].
  cbv zeta.
  destruct (frames_span _ (skipn 16 buf)) as [r|] eqn:Hr; [|discriminate].
  intros [= <-]. apply frames_span_le in Hr. rewrite length_skipn in Hr. lia.
Qed.

(** C2, as the code has it. A payload that starts with [ZLC3] and has
    the four bytes of the size after it is always a [bmz] file, with the
    size read from bytes 4..8 and the data [buf[8:size]]. A payload that
    does not start with [ZLC3] is a [ttp] file exactly when [buf[:size]]
    decodes as an animation, which it does only when the header and the
    frames it declares are all within those bytes, and it is an [other]
    file exactly when that decoding raises; either way its data is
    [buf[:size]]. *)
Theorem PacFile_from_bytes_classification (buf : bytes) (size : nat) :
  (startswith ZLC3 buf = true -> (8 <= length buf)%nat ->
     PacFile_from_bytes buf size
     = Ok {| file_type := bmz;
             data := slice 8 size buf;
             uncompressed_size := le_combine (slice 4 8 buf) |} /\
     length (slice 8 size buf) = (Nat.min size (length buf) - 8)%nat) /\
  (startswith ZLC3 buf = false ->
     exists p, PacFile_from_bytes buf size = Ok p /\
               data p = slice 0 size buf /\
               file_type p <> bmz /\
               (file_type p = ttp <->
                exists t k,
                  TtpFile_from_bytes (slice 0 size buf) = Ok t /\
                  document_span (slice 0 size buf) = Some k /\
                  (k <= length (slice 0 size buf))%nat /\
                  length (frames t) = Z.to_nat (frame_count t)) /\
               (file_type p = other <->
                raises (TtpFile_from_bytes (slice 0 size buf)))).
Proof.
  destruct (PacFile_from_bytes_branches buf size) as (Hbmz & _ & Hrest).
  split; [exact Hbmz|].
  intros Hs. destruct (Hrest Hs) as (p & Hp & Hdata & Http & Hother).
  exists p. split; [exact Hp|]. split; [exact Hdata|].
  split.
  { intros Hb. unfold PacFile_from_bytes in Hp. rewrite Hs, orb_true_r in Hp.
    destruct (TtpFile_from_bytes (slice 0 size buf));
      injection Hp as <-; discriminate Hb. }
  split; [|exact Hother].
  split.
  - intros Ht. apply Http in Ht. destruct Ht as [t Ht].
    destruct (TtpFile_from_bytes_span _ _ Ht) as (k & Hk & Hn).
    exists t, k. split; [exact Ht|]. split; [exact Hk|].
    split; [apply document_span_le, Hk | exact Hn].
  - intros (t & k & Ht & _). apply Http. exists t. exact Ht.
Qed.

End ClassifiedAnimations.

Lemma PacFile_from_bytes_classification_witness :
  (@PacFile_from_bytes X0201.codec zlc3_payload 10
   = Ok {| file_type := bmz; data := [x01; x02]; uncompressed_size := 9 |}) /\
  (exists p t k,
     @PacFile_from_bytes X0201.codec empty_animation 16 = Ok p /\
     file_type p = ttp /\
     @TtpFile_from_bytes X0201.codec (slice 0 16 empty_animation) = Ok t /\
     document_span (slice 0 16 empty_animation) = Some k) /\
  (exists p, @PacFile_from_bytes X0201.codec short_header 15 = Ok p /\
             file_type p = other).
Proof.
  split; [|split].
  - apply (@PacFile_from_bytes_classification X0201.codec X0201Facts.laws
             zlc3_payload 10); [reflexivity | simpl; lia].
  - destruct (@PacFile_from_bytes_classification X0201.codec X0201Facts.laws
                empty_animation 16) as (_ & H).
    destruct (H eq_refl) as (p & Hp & _ & _ & Http & _).
    assert (Ht : file_type p = ttp)
      by (vm_compute in Hp; injection Hp as <-; reflexivity).
    destruct (proj1 Http Ht) as (t & k & Hd & Hk & _).
    exists p, t, k. repeat split; assumption.
  - destruct (@PacFile_from_bytes_classification X0201.codec X0201Facts.laws
                short_header 15) as (_ & H).
    destruct (H eq_refl) as (p & Hp & _ & _ & _ & Ho).
    exists p. split; [exact Hp|]. apply Ho. eexists. reflexivity.
Defined.

(** ** Names with invalid bytes *)

Section InvalidNames.
Context {SJ : ShiftJis} {SJL : ShiftJisLaws SJ}.

(** When the bytes of the first name of a frame do not decode strictly,
    the name is read with replacement characters, and the frame decoder
    raises on the length of its strict encoding. *)
Lemma undecodable_name_raises (buf : bytes) (r : ResName) :
  ResName_from_bytes buf = Ok r ->
  sj_decode (slice 4 (4 + Z.to_nat (le_combine (firstn 4 buf))) buf) = None ->
  TtpFrame_from_bytes buf = Raise UnicodeEncodeError.
Proof.
  intros Hr Hd. unfold TtpFrame_from_bytes. rewrite skipn_O, Hr. cbn [bind].
  unfold ResName_from_bytes in Hr. inv_bind Hr. injection Hr as <-.
  pose proof (struct_unpack_I_inv _ _ _ Ha) as [_ ->].
  assert (E : item 0 (unpack_words 1 (slice 0 4 buf)) = le_combine (firstn 4 buf)).
  { unfold item. cbn [unpack_words nth]. rewrite slice_0, firstn_firstn. reflexivity. }
  unfold encoded_len. unfold value at 1. rewrite E.
  change (4 + Z.to_nat (le_combine (firstn 4 buf)))%nat
    with (S (S (S (S (Z.to_nat (le_combine (firstn 4 buf))))))) in Hd.
  rewrite Hd.
  rewrite (sj_replaced_unencodable _ Hd). reflexivity.
Qed.

End InvalidNames.

(** C5 fails on the code at [invalid_name_frame]: all the 33 bytes the
    frame declares are there and the name alone is read, with a
    replacement character for its invalid byte; the frame decoder then
    raises [UnicodeEncodeError] instead of stepping over 4 + 1 bytes. *)
Theorem replaced_name_breaks_frame_decode :
  length invalid_name_frame = 33%nat /\
  field_span invalid_name_frame = Some 5%nat /\
  frame_span invalid_name_frame = Some 33%nat /\
  @ResName_from_bytes X0201.codec invalid_name_frame = Ok {| value := [65533] |} /\
  @encoded_len X0201.codec {| value := [65533] |} = Raise UnicodeEncodeError /\
  @TtpFrame_from_bytes X0201.codec invalid_name_frame = Raise UnicodeEncodeError.
Proof. repeat split. Qed.

(** ** Encoding an animation and decoding it again *)

Section RoundTrip.
Context {SJ : ShiftJis}.

Lemma skipn_exact (a l : bytes) n : length a = n -> skipn n (a ++ l) = l.
Proof.
  intros <-. rewrite skipn_app, Nat.sub_diag, skipn_all. reflexivity.
Qed.

Lemma firstn_exact (a l : bytes) n : length a = n -> firstn n (a ++ l) = a.
Proof.
  intros <-. rewrite firstn_app, Nat.sub_diag, firstn_all, firstn_O, app_nil_r.
  reflexivity.
Qed.

Lemma slice_exact (a b l : bytes) lo n :
  length a = lo -> length b = n -> slice lo (lo + n) (a ++ b ++ l) = b.
Proof.
  intros Ha Hb. unfold slice. rewrite (skipn_exact _ _ _ Ha).
  replace (lo + n - lo)%nat with n by lia. apply firstn_exact, Hb.
Qed.

Lemma struct_unpack_one z :
  0 <= z < 2 ^ 32 -> struct_unpack_I 1 (le_split 4 z) = Ok [z].
Proof.
  intros H. rewrite unpack_one by apply length_le_split.
  rewrite le_combine_split_u32 by exact H. reflexivity.
Qed.

Lemma name_bytes_length e : length (name_bytes e) = (4 + length e)%nat.
Proof. unfold name_bytes. rewrite length_app, length_le_split. reflexivity. Qed.

Lemma ResName_to_bytes_strict s e :
  sj_encode s = Some e -> Z.of_nat (length e) < 2 ^ 32 ->
  ResName_to_bytes {| value := s |} = Ok (name_bytes e).
Proof.
  intros He Hlen. unfold ResName_to_bytes. cbn [value]. rewrite He.
  cbn [struct_pack_I].
  replace (is_u32 (Z.of_nat (length e))) with true
    by (symmetry; apply is_u32_true; lia).
  cbn [bind]. rewrite app_nil_r. reflexivity.
Qed.

Lemma ResName_from_bytes_strict s e rest :
  sj_decode e = Some s -> Z.of_nat (length e) < 2 ^ 32 ->
  ResName_from_bytes (name_bytes e ++ rest) = Ok {| value := s |}.
Proof.
  intros Hd Hlen. unfold ResName_from_bytes, name_bytes.
  rewrite <- app_assoc.
  replace (slice 0 4 (le_split 4 (Z.of_nat (length e)) ++ e ++ rest))
    with (le_split 4 (Z.of_nat (length e))).
  2:{ rewrite slice_0. symmetry. apply firstn_exact, length_le_split. }
  rewrite struct_unpack_one by lia. unfold bind, item, nth.
  rewrite Nat2Z.id.
  rewrite (slice_exact _ e rest 4 (length e) (length_le_split _ _) eq_refl).
  rewrite Hd. reflexivity.
Qed.

Lemma encoded_len_strict s e :
  sj_encode s = Some e -> encoded_len {| value := s |} = Ok (length e).
Proof. intros He. unfold encoded_len. cbn [value]. rewrite He. reflexivity. Qed.

Lemma five_words_length (zs : list Z) :
  length zs = 5%nat -> length (flat_map (le_split 4) zs) = 20%nat.
Proof. intros H. rewrite flat_map_le_split_length, H. reflexivity. Qed.

Lemma TtpFrame_round_trip (f : TtpFrame) :
  frame_well_formed f ->
  exists fb,
    TtpFrame_to_bytes f = Ok fb /\
    frame_advance f = Ok (length fb) /\
    forall rest, TtpFrame_from_bytes (fb ++ rest) = Ok f.
Proof.
  destruct f as [[s1] [s2] [s3] d xt yt x y].
  unfold frame_well_formed, u32. cbn [sprite_name se_name textbox_name value
    delay_ms x_offset_textbox y_offset_textbox x_offset y_offset].
  intros ((e1 & E1 & D1 & L1) & (e2 & E2 & D2 & L2) & (e3 & E3 & D3 & L3)
          & Hd & Hxt & Hyt & Hx & Hy).
  assert (Hall : Forall (fun z => 0 <= z < 2 ^ 32) [d; xt; yt; x; y])
    by (repeat constructor; lia).
  set (ints := flat_map (le_split 4) [d; xt; yt; x; y]).
  assert (Hints : length ints = 20%nat) by (apply five_words_length; reflexivity).
  exists (name_bytes e1 ++ name_bytes e2 ++ name_bytes e3 ++ ints).
  split; [|split].
  - unfold TtpFrame_to_bytes. cbn [sprite_name se_name textbox_name
      delay_ms x_offset_textbox y_offset_textbox x_offset y_offset].
    rewrite (ResName_to_bytes_strict _ _ E1 L1), (ResName_to_bytes_strict _ _ E2 L2),
      (ResName_to_bytes_strict _ _ E3 L3).
    unfold bind at 1 2 3. rewrite (struct_pack_I_ok _ Hall). reflexivity.
  - unfold frame_advance. cbn [sprite_name se_name textbox_name].
    rewrite (encoded_len_strict _ _ E1), (encoded_len_strict _ _ E2),
      (encoded_len_strict _ _ E3). unfold bind.
    rewrite !length_app, !name_bytes_length, Hints. f_equal. lia.
  - intros rest. unfold TtpFrame_from_bytes.
    rewrite skipn_O. rewrite <- !app_assoc.
    rewrite (ResName_from_bytes_strict _ _ _ D1 L1). unfold bind at 1.
    rewrite (encoded_len_strict _ _ E1). unfold bind at 1.
    rewrite (skipn_exact (name_bytes e1) _ (0 + (4 + length e1)))
      by (rewrite name_bytes_length; lia).
    rewrite (ResName_from_bytes_strict _ _ _ D2 L2). unfold bind at 1.
    rewrite (encoded_len_strict _ _ E2). unfold bind at 1.
    replace (skipn (0 + (4 + length e1) + (4 + length e2))
               (name_bytes e1 ++ name_bytes e2 ++ name_bytes e3 ++ ints ++ rest))
      with (name_bytes e3 ++ ints ++ rest).
    2:{ rewrite (app_assoc (name_bytes e1)). symmetry. apply skipn_exact.
        rewrite length_app, !name_bytes_length. lia. }
    rewrite (ResName_from_bytes_strict _ _ _ D3 L3). unfold bind at 1.
    rewrite (encoded_len_strict _ _ E3). unfold bind at 1.
    replace (slice (0 + (4 + length e1) + (4 + length e2) + (4 + length e3))
               (0 + (4 + length e1) + (4 + length e2) + (4 + length e3) + 20)
               (name_bytes e1 ++ name_bytes e2 ++ name_bytes e3 ++ ints ++ rest))
      with ints.
    2:{ rewrite (app_assoc (name_bytes e1)), (app_assoc (name_bytes e1 ++ name_bytes e2)).
        symmetry. apply slice_exact; [|exact Hints].
        rewrite !length_app, !name_bytes_length. lia. }
    unfold ints. change 5%nat with (length [d; xt; yt; x; y]).
    rewrite (struct_unpack_pack _ Hall). reflexivity.
Qed.

Lemma frames_round_trip (fs : list TtpFrame) :
  Forall frame_well_formed fs ->
  exists body,
    frames_to_bytes fs = Ok body /\
    forall pre tail,
      read_frames (length fs) (pre ++ body ++ tail) (length pre)
      = Ok (fs, (length pre + length body)%nat).
Proof.
  induction 1 as [|f fs Hf _ (body & Hbody & IH)].
  - exists []. split; [reflexivity|]. intros pre tail. cbn. rewrite Nat.add_0_r. reflexivity.
  - destruct (TtpFrame_round_trip f Hf) as (fb & Hfb & Hadv & Hdec).
    exists (fb ++ body). split.
    + cbn [frames_to_bytes]. rewrite Hfb, Hbody. reflexivity.
    + intros pre tail. cbn [length read_frames].
      rewrite (skipn_exact pre _ (length pre) eq_refl), <- app_assoc, Hdec.
      unfold bind at 1. rewrite Hadv. unfold bind at 1.
      specialize (IH (pre ++ fb) tail).
      rewrite length_app, <- app_assoc in IH. rewrite IH. cbn.
      rewrite length_app. do 2 f_equal. lia.
Qed.

(** C4, as the code has it: a well-formed animation (the declared count is
    the number of frames, every integer fits its field, the optional byte
    is set only with type 3) whose names survive a round trip through the
    text encoding is encoded, and decoding the bytes gives it back. *)
Theorem TtpFile_round_trip (t : TtpFile) :
  document_well_formed t ->
  exists b, TtpFile_to_bytes t = Ok b /\ TtpFile_from_bytes b = Ok t.
Proof.
  destruct t as [ty count w h fs flag].
  unfold document_well_formed, u32.
  cbn [maybe_ttp_type frame_count window_width window_height frames
       onetime_wakeup_dont_play_sound].
  intros (Hcount & Hty & Hc & Hw & Hh & Hfs & Hflag).
  destruct (frames_round_trip fs Hfs) as (body & Hbody & Hread).
  assert (Hall : Forall (fun z => 0 <= z < 2 ^ 32) [ty; count; w; h])
    by (repeat constructor; lia).
  set (header := flat_map (le_split 4) [ty; count; w; h]).
  assert (Hhl : length header = 16%nat)
    by (unfold header; rewrite flat_map_le_split_length; reflexivity).
  set (tail := match flag with
               | Some v => if ty =? 3 then [byte.of_Z v] else []
               | None => []
               end).
  exists (header ++ body ++ tail). split.
  - unfold TtpFile_to_bytes.
    cbn [maybe_ttp_type frame_count window_width window_height frames
         onetime_wakeup_dont_play_sound].
    rewrite (struct_pack_I_ok _ Hall), Hbody. unfold bind at 1 2.
    destruct flag as [v|]; [|reflexivity].
    destruct Hflag as [-> Hv]. unfold struct_pack_B.
    replace (is_u8 v) with true by (symmetry; apply is_u8_true; exact Hv).
    reflexivity.
  - unfold TtpFile_from_bytes.
    replace (slice 0 16 (header ++ body ++ tail)) with header
      by (rewrite slice_0; symmetry; apply firstn_exact, Hhl).
    unfold header at 1. change 4%nat with (length [ty; count; w; h]) at 1.
    rewrite (struct_unpack_pack _ Hall). unfold bind at 1.
    unfold item, nth. rewrite Hcount, Nat2Z.id.
    rewrite <- Hhl at 1. rewrite Hread. unfold bind at 1.
    cbv beta iota zeta. rewrite Hhl.
    assert (Hflagdec :
      (if (ty =? 3) && Nat.ltb (16 + length body) (length (header ++ body ++ tail))
       then bind (struct_unpack_B
                    (slice (16 + length body) (16 + length body + 1)
                       (header ++ body ++ tail)))
                 (fun v => Ok (Some v))
       else Ok None) = Ok flag).
    { rewrite !length_app, Hhl. subst tail. destruct flag as [v|].
      - destruct Hflag as [-> Hv]. change (3 =? 3) with true. cbn [andb length].
        destruct (Nat.ltb_spec (16 + length body) (16 + (length body + 1))); [|lia].
        rewrite app_assoc.
        replace (slice (16 + length body) (16 + length body + 1)
                   ((header ++ body) ++ [byte.of_Z v])) with [byte.of_Z v].
        2:{ symmetry.
            apply (slice_exact (header ++ body) [byte.of_Z v] [] (16 + length body) 1);
              [rewrite length_app, Hhl; reflexivity | reflexivity]. }
        cbn [struct_unpack_B bind]. rewrite byte.unsigned_of_Z.
        unfold byte.wrap. rewrite Z.mod_small by exact Hv. reflexivity.
      - cbn [length]. destruct (Nat.ltb_spec (16 + length body) (16 + (length body + 0))); [lia|].
        rewrite andb_false_r. reflexivity. }
    rewrite Hflagdec. reflexivity.
Qed.

End RoundTrip.

Lemma X0201_ascii_round_trips :
  @text_round_trips X0201.codec [97; 46; 98; 109; 112].
Proof.
  exists [x61; x2e; x62; x6d; x70]. repeat split; simpl; lia.
Qed.

Lemma X0201_empty_round_trips : @text_round_trips X0201.codec [].
Proof. exists []. repeat split; simpl; lia. Qed.

Lemma TtpFile_round_trip_witness :
  exists b,
    @TtpFile_to_bytes X0201.codec (one_frame_document [97; 46; 98; 109; 112]) = Ok b /\
    @TtpFile_from_bytes X0201.codec b = Ok (one_frame_document [97; 46; 98; 109; 112]).
Proof.
  apply (@TtpFile_round_trip X0201.codec (one_frame_document [97; 46; 98; 109; 112])).
  unfold document_well_formed, u32. cbn.
  repeat split; try lia.
  constructor; [|constructor].
  unfold frame_well_formed, u32. cbn.
  repeat split; try lia;
    first [exact X0201_ascii_round_trips | exact X0201_empty_round_trips].
Defined.

(** C4 as stated fails. The yen sign U+00A5 is representable in the
    encoding, as the byte 5C, and 5C decodes as the backslash U+005C: a
    document with the declared count right and the name [[165]] comes back
    with the name [[92]]. *)
Lemma round_trip_changes_document :
  frame_count (one_frame_document [165])
  = Z.of_nat (length (frames (one_frame_document [165]))) /\
  @sj_encode X0201.codec [165] = Some [x5c] /\
  exists b t',
    @TtpFile_to_bytes X0201.codec (one_frame_document [165]) = Ok b /\
    @TtpFile_from_bytes X0201.codec b = Ok t' /\
    t' = one_frame_document [92] /\
    t' <> one_frame_document [165].
Proof.
  split; [reflexivity|]. split; [reflexivity|].
  do 2 eexists. split; [reflexivity|]. split; [reflexivity|].
  split; [reflexivity|]. discriminate.
Qed.

(** The optional byte of a document whose type is not 3 is not written:
    such a document comes back with the byte unset. *)
Example optional_byte_needs_type_3 :
  exists b t',
    @TtpFile_to_bytes X0201.codec flagged_document = Ok b /\
    @TtpFile_from_bytes X0201.codec b = Ok t' /\
    onetime_wakeup_dont_play_sound t' = None /\
    t' <> flagged_document.
Proof.
  do 2 eexists. split; [reflexivity|]. split; [reflexivity|].
  split; [reflexivity|]. discriminate.
Qed.

(** ** Entry headers at the end of the file *)

Section EntryHeaders.
Context {SJ : ShiftJis}.

(** The guard of [PacEntry.from_file]: when fewer than eight bytes are
    left for the offset and the size, it raises [EOFError]. *)
Lemma PacEntry_from_file_short_pair (f : BinaryIO) :
  (length (content f) - position f < 8)%nat ->
  PacEntry_from_file f = Raise EOFError.
Proof.
  intros H. unfold PacEntry_from_file, f_read.
  destruct (Nat.ltb_spec
              (length (slice (position f) (position f + 8) (content f))) 8)
    as [_|Hge]; [reflexivity|].
  rewrite length_slice in Hge. lia.
Qed.

End EntryHeaders.

(** C7 fails on the code at [cut_entry_header]: ten bytes are left, the
    offset, the size and two bytes of name; [PacEntry.from_file] checks
    the first eight only and returns an entry named [ab]. Through
    [PacArchive.from_file] the cut archive is read as an archive of one
    entry. *)
Theorem cut_entry_header_is_read :
  length cut_entry_header = 10%nat /\
  @PacEntry_from_file X0201.codec {| content := cut_entry_header; position := 0 |}
  = Ok ({| offset := 68; size := 12; name := [97; 98];
           file_data := {| file_type := other; data := []; uncompressed_size := 0 |} |},
        {| content := cut_entry_header; position := 10 |}) /\
  @PacArchive_from_file X0201.codec cut_archive
  = Ok {| entries_count := 1;
          entries := [ {| offset := 68; size := 12; name := [97; 98];
                          file_data := {| file_type := other; data := [];
                                          uncompressed_size := 0 |} |} ] |}.
Proof. repeat split. Qed.

(** * Further properties of the tool *)

(** ** Extensions *)

(** X1: the two extension maps undo each other, except on the names they
    produce themselves: a packed file called [.bmp] or [.json] keeps its
    extension on extraction and is packed again as [.bmz] or [.ttp]. *)
Theorem extension_maps_inverse (ext : string) :
  (ext <> "bmz"%string -> ext <> "ttp"%string ->
   converted_ext (original_ext ext) = ext) /\
  (ext <> "bmp"%string -> ext <> "json"%string ->
   original_ext (converted_ext ext) = ext) /\
  original_ext (converted_ext "bmp") = "bmz"%string /\
  original_ext (converted_ext "json") = "ttp"%string.
Proof.
  unfold original_ext, converted_ext. repeat split.
  - intros H1 H2.
    destruct (String.eqb_spec ext "bmp") as [->|]; [reflexivity|].
    destruct (String.eqb_spec ext "json") as [->|]; [reflexivity|].
    destruct (String.eqb_spec ext "bmz"); [contradiction|].
    destruct (String.eqb_spec ext "ttp"); [contradiction|]. reflexivity.
  - intros H1 H2.
    destruct (String.eqb_spec ext "bmz") as [->|]; [reflexivity|].
    destruct (String.eqb_spec ext "ttp") as [->|]; [reflexivity|].
    destruct (String.eqb_spec ext "bmp"); [contradiction|].
    destruct (String.eqb_spec ext "json"); [contradiction|]. reflexivity.
Qed.

Lemma extension_maps_inverse_witness :
  converted_ext (original_ext "json") = "json"%string /\
  original_ext (converted_ext "ttp") = "ttp"%string /\
  original_ext (converted_ext "wav") = "wav"%string.
Proof.
  split; [|split].
  - apply (extension_maps_inverse "json"); discriminate.
  - apply (extension_maps_inverse "ttp"); discriminate.
  - apply (extension_maps_inverse "wav"); discriminate.
Defined.

(** ** The editable form of an animation *)

Lemma TtpFrame_dict_round_trip (f : TtpFrame) :
  TtpFrame_from_dict (TtpFrame_to_dict f) = Ok f.
Proof. destruct f as [[s1] [s2] [s3] d xt yt x y]. reflexivity. Qed.

Lemma frames_dict_round_trip (fs : list TtpFrame) :
  frames_from_dicts (map TtpFrame_to_dict fs) = Ok fs.
Proof.
  induction fs as [|f fs IH]; [reflexivity|].
  cbn [map frames_from_dicts]. rewrite TtpFrame_dict_round_trip, IH. reflexivity.
Qed.

(** X2: [from_dict] undoes [to_dict]: every animation is read back from
    its editable form, with the optional byte set or unset as it was. *)
Theorem TtpFile_dict_round_trip (t : TtpFile) :
  TtpFile_from_dict (TtpFile_to_dict t) = Ok t.
Proof.
  destruct t as [ty count w h fs flag].
  unfold TtpFile_from_dict, TtpFile_to_dict.
  cbn [maybe_ttp_type frame_count window_width window_height frames
       onetime_wakeup_dont_play_sound].
  destruct flag as [v|]; cbn; rewrite frames_dict_round_trip; reflexivity.
Qed.

Lemma getitem_key (key : string) (kv : list (string * json)) (v : json) :
  getitem key (JObj kv) = Ok v -> In key (keys kv).
Proof.
  unfold getitem, keys.
  destruct (find _ (rev kv)) as [p|] eqn:Hf; [|discriminate]. intros _.
  apply find_some in Hf. destruct Hf as [Hin Heq].
  apply String.eqb_eq in Heq. subst key.
  apply in_map. apply in_rev. exact Hin.
Qed.

Lemma int_field_key key kv z : int_field key (JObj kv) = Ok z -> In key (keys kv).
Proof. unfold int_field. intros H. inv_bind H. eapply getitem_key; eauto. Qed.

Lemma name_field_key key kv r : name_field key (JObj kv) = Ok r -> In key (keys kv).
Proof. unfold name_field. intros H. inv_bind H. eapply getitem_key; eauto. Qed.

Lemma get_absent key kv :
  ~ In key (keys kv) -> get key (JObj kv) = Ok JNull.
Proof.
  unfold get, keys. intros Hn.
  destruct (find _ (rev kv)) as [p|] eqn:Hf; [|reflexivity].
  apply find_some in Hf. destruct Hf as [Hin Heq].
  apply String.eqb_eq in Heq. subst key.
  exfalso. apply Hn. apply in_map. apply in_rev. exact Hin.
Qed.

(** X3: [from_dict] needs its keys. An animation is read from an object
    only if the object has the five keys of the header and the frame list,
    and it is read without the optional byte when that key is absent; a
    frame is read only from an object with its eight keys. *)
Theorem from_dict_needs_keys (kv : list (string * json)) :
  (forall t, TtpFile_from_dict (JObj kv) = Ok t ->
     Forall (fun k => In k (keys kv)) TtpFile_keys /\
     (~ In "onetime_wakeup_dont_play_sound"%string (keys kv) ->
      onetime_wakeup_dont_play_sound t = None)) /\
  (forall f, TtpFrame_from_dict (JObj kv) = Ok f ->
     Forall (fun k => In k (keys kv)) TtpFrame_keys).
Proof.
  split.
  - intros t H. unfold TtpFile_from_dict in H.
    inv_bind H. apply int_field_key in Ha.
    inv_bind H. apply int_field_key in Ha0.
    inv_bind H. apply int_field_key in Ha1.
    inv_bind H. apply int_field_key in Ha2.
    inv_bind H. apply getitem_key in Ha3.
    inv_bind H. inv_bind H. inv_bind H. injection H as <-.
    split; [repeat constructor; assumption|].
    intros Habs. cbn [onetime_wakeup_dont_play_sound].
    rewrite (get_absent _ _ Habs) in Ha5. injection Ha5 as <-.
    cbn in Ha6. congruence.
  - intros f H. unfold TtpFrame_from_dict in H.
    inv_bind H. apply name_field_key in Ha.
    inv_bind H. apply name_field_key in Ha0.
    inv_bind H. apply name_field_key in Ha1.
    inv_bind H. apply int_field_key in Ha2.
    inv_bind H. apply int_field_key in Ha3.
    inv_bind H. apply int_field_key in Ha4.
    inv_bind H. apply int_field_key in Ha5.
    inv_bind H. apply int_field_key in Ha6.
    repeat constructor; assumption.
Qed.

Lemma from_dict_needs_keys_witness :
  exists t,
    TtpFile_from_dict stale_count_document = Ok t /\
    onetime_wakeup_dont_play_sound t = None.
Proof.
  eexists. split; [reflexivity|].
  destruct (from_dict_needs_keys
              [ ("maybe_ttp_type"%string, JInt 0);
                ("frame_count"%string, JInt 5);
                ("window_width"%string, JInt 640);
                ("window_height"%string, JInt 480);
                ("frames"%string, JArr []) ]) as [H _].
  destruct (H _ eq_refl) as [_ Hflag]. apply Hflag.
  cbn. intros [E|[E|[E|[E|[E|[]]]]]]; discriminate E.
Defined.

(** A document without its [frame_count] is refused with [KeyError]. *)
Example from_dict_missing_frame_count :
  TtpFile_from_dict (JObj [ ("maybe_ttp_type"%string, JInt 0) ]) = Raise KeyError.
Proof. reflexivity. Qed.

(** ** Payloads through extraction and packing *)

Section Payloads.
Context {SJ : ShiftJis} {ZL : Zlib} {JS : Json}.

Lemma startswith_app (prefix rest : bytes) : startswith prefix (prefix ++ rest) = true.
Proof.
  unfold startswith, bytes_eqb. rewrite firstn_app, Nat.sub_diag, firstn_all.
  cbn [firstn]. rewrite app_nil_r.
  destruct (list_eq_dec Byte.byte_eq_dec prefix prefix); [reflexivity|contradiction].
Qed.

(** X4: a compressed bitmap is read back from its packed bytes. When the
    stored size fits four bytes, [to_bytes] returns, and [from_bytes] on
    the result, with a size that covers it, gives the file again. *)
Theorem bmz_packed_round_trip (p : PacFile) (size : nat) :
  file_type p = bmz ->
  0 <= uncompressed_size p < 2 ^ 32 ->
  exists out,
    PacFile_to_bytes p = Ok out /\
    length out = (8 + length (data p))%nat /\
    ((length out <= size)%nat -> PacFile_from_bytes out size = Ok p).
Proof.
  destruct p as [ty d usz]. cbn [file_type data uncompressed_size].
  intros -> Hu.
  exists (ZLC3 ++ le_split 4 usz ++ d).
  unfold PacFile_to_bytes. cbn [file_type data uncompressed_size struct_pack_I].
  replace (is_u32 usz) with true by (symmetry; apply is_u32_true; exact Hu).
  cbn [bind]. rewrite app_nil_r, <- app_assoc.
  split; [reflexivity|].
  split; [rewrite !length_app, length_le_split; reflexivity|].
  intros Hsize. unfold PacFile_from_bytes. rewrite startswith_app.
  change (slice 4 8 (ZLC3 ++ le_split 4 usz ++ d))
    with (slice 4 (4 + 4) (ZLC3 ++ le_split 4 usz ++ d)).
  rewrite (slice_exact ZLC3 (le_split 4 usz) d 4 4 eq_refl (length_le_split _ _)).
  rewrite struct_unpack_one by exact Hu. cbn [bind item nth].
  do 2 f_equal. unfold slice.
  rewrite (app_assoc ZLC3), (skipn_exact (ZLC3 ++ le_split 4 usz) d 8)
    by (rewrite length_app, length_le_split; reflexivity).
  apply firstn_all2.
  rewrite !length_app, length_le_split in Hsize. cbn [length ZLC3] in Hsize. lia.
Qed.

(** X5: a file that is neither a bitmap nor an animation goes through
    extraction and packing untouched: its extracted data are its bytes,
    and converting them back under any extension but [bmp] and [json]
    packs to the same bytes. *)
Theorem opaque_file_passes_through (p : PacFile) (ext : string) :
  file_type p = other ->
  ext <> "bmp"%string -> ext <> "json"%string ->
  converted_data p = Ok (data p) /\
  exists p', convert_back (data p) ext = Ok p' /\
             file_type p' = other /\
             PacFile_to_bytes p' = Ok (data p).
Proof.
  intros Hty Hb Hj. unfold converted_data, convert_back. rewrite Hty.
  split; [reflexivity|].
  destruct (String.eqb_spec ext "bmp"); [contradiction|].
  destruct (String.eqb_spec ext "json"); [contradiction|].
  eexists. repeat split.
Qed.

(** X6: extraction of a file that [from_bytes] classified fails in one
    case only, a bitmap whose data do not inflate: an animation was decoded
    once to be classified and decodes again, other files are returned as
    they are. *)
Theorem converted_data_raises_only_on_corrupt_bitmap
    (buf : bytes) (size : nat) (p : PacFile) :
  PacFile_from_bytes buf size = Ok p ->
  (raises (converted_data p) <->
   file_type p = bmz /\ zlib_decompress (data p) = None).
Proof.
  unfold PacFile_from_bytes, converted_data.
  destruct (startswith ZLC3 buf).
  - intros H. inv_bind H. injection H as <-. cbn [file_type data].
    destruct (zlib_decompress (slice 8 size buf)) as [b|]; split.
    + intros [e He]. discriminate.
    + intros [_ H]. discriminate.
    + intros _. split; reflexivity.
    + intros _. eexists. reflexivity.
  - rewrite orb_true_r.
    destruct (TtpFile_from_bytes (slice 0 size buf)) as [t|e] eqn:Hd;
      intros H; injection H as <-; cbn [file_type data].
    + rewrite Hd. cbn [bind]. split; [intros [e He]; discriminate|].
      intros [H _]. discriminate.
    + split; [intros [e' He]; discriminate|]. intros [H _]. discriminate.
Qed.

End Payloads.

Lemma bmz_packed_round_trip_witness :
  exists out,
    PacFile_to_bytes {| file_type := bmz; data := [x01; x02]; uncompressed_size := 9 |}
    = Ok out /\
    @PacFile_from_bytes X0201.codec out 10
    = Ok {| file_type := bmz; data := [x01; x02]; uncompressed_size := 9 |}.
Proof.
  destruct (@bmz_packed_round_trip X0201.codec
              {| file_type := bmz; data := [x01; x02]; uncompressed_size := 9 |} 10
              eq_refl) as (out & Ho & Hl & Hr).
  - cbn. lia.
  - exists out. split; [exact Ho|]. apply Hr. rewrite Hl. cbn. lia.
Defined.

Lemma opaque_file_passes_through_witness :
  exists p',
    @convert_back X0201.codec stored_zlib no_json [x52; x49; x46; x46] "wav" = Ok p' /\
    PacFile_to_bytes p' = Ok [x52; x49; x46; x46].
Proof.
  destruct (@opaque_file_passes_through X0201.codec stored_zlib no_json
              {| file_type := other; data := [x52; x49; x46; x46];
                 uncompressed_size := 0 |} "wav" eq_refl)
    as (_ & p' & Hc & _ & Hp); [discriminate | discriminate |].
  exists p'. split; [exact Hc | exact Hp].
Defined.

Lemma converted_data_raises_only_on_corrupt_bitmap_witness :
  ~ raises (@converted_data X0201.codec stored_zlib no_json
              {| file_type := ttp; data := empty_animation; uncompressed_size := 0 |}).
Proof.
  intros Hr.
  apply (@converted_data_raises_only_on_corrupt_bitmap X0201.codec stored_zlib no_json
           empty_animation 16 _ eq_refl) in Hr.
  destruct Hr as [H _]. discriminate H.
Defined.

(** ** Names in binary form *)

Section Names.
Context {SJ : ShiftJis}.

Lemma ResName_from_bytes_name_bytes (e rest : bytes) :
  Z.of_nat (length e) < 2 ^ 32 ->
  ResName_from_bytes (name_bytes e ++ rest) = Ok {| value := lenient_decode e |}.
Proof.
  intros Hlen. unfold ResName_from_bytes, name_bytes, lenient_decode.
  rewrite <- app_assoc.
  replace (slice 0 4 (le_split 4 (Z.of_nat (length e)) ++ e ++ rest))
    with (le_split 4 (Z.of_nat (length e))).
  2:{ rewrite slice_0. symmetry. apply firstn_exact, length_le_split. }
  rewrite struct_unpack_one by lia. unfold bind, item, nth.
  rewrite Nat2Z.id.
  rewrite (slice_exact _ e rest 4 (length e) (length_le_split _ _) eq_refl).
  reflexivity.
Qed.

Lemma field_span_name_bytes (e rest : bytes) :
  Z.of_nat (length e) < 2 ^ 32 ->
  field_span (name_bytes e ++ rest) = Some (4 + length e)%nat.
Proof.
  intros Hlen. unfold field_span, name_bytes.
  rewrite <- app_assoc, !length_app, length_le_split.
  destruct (Nat.leb_spec 4 (4 + (length e + length rest))); [|lia].
  rewrite (firstn_exact _ _ 4 (length_le_split _ _)).
  rewrite le_combine_split_u32 by lia. cbv zeta. rewrite Nat2Z.id.
  destruct (Nat.leb_spec (4 + length e) (4 + (length e + length rest))); [reflexivity|lia].
Qed.

(** X7: [ResName.to_bytes] never raises on the text itself: a name that
    the encoding cannot represent is written with replacements. It raises
    only when the encoded name does not fit the length prefix. What it
    writes is read by [ResName.from_bytes] as one field of four bytes and
    the encoded name, whatever follows. *)
Theorem ResName_to_bytes_then_from_bytes (r : ResName) (rest : bytes) :
  (Z.of_nat (length (lenient_encode (value r))) < 2 ^ 32 ->
   ResName_to_bytes r = Ok (name_bytes (lenient_encode (value r))) /\
   field_span (name_bytes (lenient_encode (value r)) ++ rest)
   = Some (4 + length (lenient_encode (value r)))%nat /\
   ResName_from_bytes (name_bytes (lenient_encode (value r)) ++ rest)
   = Ok {| value := lenient_decode (lenient_encode (value r)) |}) /\
  (2 ^ 32 <= Z.of_nat (length (lenient_encode (value r))) ->
   ResName_to_bytes r = Raise struct_error).
Proof.
  split.
  - intros Hlen. split; [|split].
    + unfold ResName_to_bytes. fold (lenient_encode (value r)).
      cbn [struct_pack_I].
      replace (is_u32 (Z.of_nat (length (lenient_encode (value r))))) with true
        by (symmetry; apply is_u32_true; lia).
      cbn [bind]. rewrite app_nil_r. reflexivity.
    + apply field_span_name_bytes, Hlen.
    + apply ResName_from_bytes_name_bytes, Hlen.
  - intros Hlen. unfold ResName_to_bytes. fold (lenient_encode (value r)).
    cbn [struct_pack_I].
    replace (is_u32 (Z.of_nat (length (lenient_encode (value r))))) with false;
      [reflexivity|].
    symmetry. apply not_true_is_false. intros H. apply is_u32_true in H. lia.
Qed.

End Names.

Lemma ResName_to_bytes_then_from_bytes_witness :
  @ResName_to_bytes X0201.codec {| value := [233; 97] |}
  = Ok (le_split 4 2 ++ [x3f; x61]) /\
  @ResName_from_bytes X0201.codec ((le_split 4 2 ++ [x3f; x61]) ++ [xff])
  = Ok {| value := [63; 97] |}.
Proof.
  destruct (@ResName_to_bytes_then_from_bytes X0201.codec {| value := [233; 97] |} [xff])
    as [H _].
  destruct H as (H1 & _ & H3); [cbn; lia|].
  split; [exact H1 | exact H3].
Defined.

(** ** Decoding an animation and encoding it again *)

Module X0201Reencode.
Import X0201.

Lemma encode_decode_byte x c : decode_byte x = Some c -> encode_char c = Some x.
Proof.
  unfold decode_byte, encode_char.
  pose proof (byte.unsigned_range x) as Hr. change (2 ^ 8) with 256 in Hr.
  destruct (Z.ltb_spec (byte.unsigned x) 128).
  - intros [= <-].
    destruct (Z.leb_spec 0 (byte.unsigned x)); [|lia].
    destruct (Z.ltb_spec (byte.unsigned x) 128); [|lia]. cbn [andb].
    rewrite byte.of_Z_unsigned. reflexivity.
  - destruct (Z.leb_spec 161 (byte.unsigned x)); cbn [andb]; [|discriminate].
    destruct (Z.leb_spec (byte.unsigned x) 223); [|discriminate].
    intros [= <-].
    destruct (Z.ltb_spec (byte.unsigned x + 65216) 128); [lia|].
    rewrite andb_false_r.
    destruct (Z.eqb_spec (byte.unsigned x + 65216) 165); [lia|].
    destruct (Z.eqb_spec (byte.unsigned x + 65216) 8254); [lia|].
    destruct (Z.leb_spec 65377 (byte.unsigned x + 65216)); [|lia].
    destruct (Z.leb_spec (byte.unsigned x + 65216) 65439); [|lia].
    cbn [andb]. replace (byte.unsigned x + 65216 - 65216) with (byte.unsigned x) by lia.
    rewrite byte.of_Z_unsigned. reflexivity.
Qed.

Lemma reencode b : forall s, decode b = Some s -> encode s = Some b.
Proof.
  induction b as [|x b IH]; cbn [decode]; intros s H.
  - injection H as <-. reflexivity.
  - destruct (decode_byte x) as [c|] eqn:Hx; [|discriminate].
    destruct (decode b) as [s'|]; [|discriminate].
    injection H as <-. cbn [encode].
    rewrite (encode_decode_byte _ _ Hx), (IH _ eq_refl). reflexivity.
Qed.

Lemma reencodes : ShiftJisReencodes codec.
Proof. constructor. exact reencode. Qed.

End X0201Reencode.

Section Reencode.
Context {SJ : ShiftJis} {SJL : ShiftJisLaws SJ} {SJR : ShiftJisReencodes SJ}.

Lemma firstn_plus (a b : nat) (l : bytes) :
  firstn (a + b) l = firstn a l ++ firstn b (skipn a l).
Proof.
  revert l. induction a as [|a IH]; intros l; [reflexivity|].
  destruct l as [|x l]; cbn [Nat.add firstn skipn app].
  - rewrite firstn_nil. reflexivity.
  - f_equal. apply IH.
Qed.

Lemma le_split_combine_4 (b : bytes) :
  length b = 4%nat -> le_split 4 (le_combine b) = b.
Proof. intros H. rewrite <- H. apply split_le_combine. Qed.

Lemma le_combine_4_range (b : bytes) :
  length b = 4%nat -> 0 <= le_combine b < 2 ^ 32.
Proof.
  intros H. pose proof (le_combine_bound b) as Hb. rewrite H in Hb. exact Hb.
Qed.

Lemma pack_unpack_words (n : nat) :
  forall b, length b = (4 * n)%nat -> struct_pack_I (unpack_words n b) = Ok b.
Proof.
  induction n as [|n IH]; intros b Hlen.
  - destruct b; [reflexivity|discriminate].
  - cbn [unpack_words struct_pack_I].
    assert (H4 : length (firstn 4 b) = 4%nat) by (rewrite length_firstn; lia).
    replace (is_u32 (le_combine (firstn 4 b))) with true
      by (symmetry; apply is_u32_true, le_combine_4_range, H4).
    rewrite IH by (rewrite length_skipn; lia). cbn [bind].
    rewrite (le_split_combine_4 _ H4), firstn_skipn. reflexivity.
Qed.

(** A name that was read with bytes after it is written as the bytes it
    was read from. *)
Lemma ResName_reencode (buf : bytes) (r : ResName) (n : nat) :
  ResName_from_bytes buf = Ok r ->
  encoded_len r = Ok n ->
  (4 + n < length buf)%nat ->
  ResName_to_bytes r = Ok (firstn (4 + n) buf).
Proof.
  intros Hr Hn Hmore.
  destruct (ResName_from_bytes_len _ _ _ Hr Hn) as [H4 Hmin].
  set (L := Z.to_nat (le_combine (firstn 4 buf))) in *.
  assert (HnL : n = L) by lia. clear Hmin. subst n.
  unfold ResName_from_bytes in Hr. inv_bind Hr. injection Hr as <-.
  pose proof (struct_unpack_I_inv _ _ _ Ha) as [_ ->].
  assert (E : item 0 (unpack_words 1 (slice 0 4 buf)) = le_combine (firstn 4 buf)).
  { unfold item. cbn [unpack_words nth]. rewrite slice_0, firstn_firstn. reflexivity. }
  unfold encoded_len in Hn. unfold ResName_to_bytes.
  unfold value in *. rewrite E in *. fold L in Hn |- *.
  change (S (S (S (S L)))) with (4 + L)%nat in *.
  destruct (sj_decode (slice 4 (4 + L) buf)) as [s|] eqn:Hd.
  - rewrite (sj_reencode _ _ Hd).
    assert (Hl : length (slice 4 (4 + L) buf) = L) by (rewrite length_slice; lia).
    rewrite Hl. unfold L at 1.
    assert (F4 : length (firstn 4 buf) = 4%nat) by (rewrite length_firstn; lia).
    rewrite Z2Nat.id by (apply le_combine_4_range, F4).
    cbn [struct_pack_I].
    replace (is_u32 (le_combine (firstn 4 buf))) with true
      by (symmetry; apply is_u32_true, le_combine_4_range, F4).
    cbn [bind]. rewrite app_nil_r, (le_split_combine_4 _ F4), firstn_plus.
    unfold slice. replace (4 + L - 4)%nat with L by lia. reflexivity.
  - rewrite (sj_replaced_unencodable _ Hd) in Hn. discriminate.
Qed.

(** A frame that decodes is written as the bytes it was read from. *)
Lemma TtpFrame_reencode (buf : bytes) (f : TtpFrame) :
  TtpFrame_from_bytes buf = Ok f ->
  exists k, frame_span buf = Some k /\ frame_advance f = Ok k /\
            (k <= length buf)%nat /\
            TtpFrame_to_bytes f = Ok (firstn k buf).
Proof.
  intros Hf. destruct (TtpFrame_from_bytes_span _ _ Hf) as (k & Hk & Hadv & Hle).
  exists k. repeat split; try assumption.
  unfold TtpFrame_from_bytes in Hf.
  inv_bind Hf. rename a into r1, Ha into Hr1.
  inv_bind Hf. rename a into n1, Ha into Hn1.
  inv_bind Hf. rename a into r2, Ha into Hr2.
  inv_bind Hf. rename a into n2, Ha into Hn2.
  inv_bind Hf. rename a into r3, Ha into Hr3.
  inv_bind Hf. rename a into n3, Ha into Hn3.
  inv_bind Hf. rename a into vals, Ha into Hv.
  injection Hf as <-.
  rewrite skipn_O in Hr1.
  set (P := (4 + n1 + (4 + n2) + (4 + n3))%nat).
  assert (E2 : ResName_from_bytes (skipn (4 + n1) buf) = Ok r2) by exact Hr2.
  assert (E3 : ResName_from_bytes (skipn (4 + n1 + (4 + n2)) buf) = Ok r3) by exact Hr3.
  assert (Ev : struct_unpack_I 5 (slice P (P + 20) buf) = Ok vals) by exact Hv.
  clear Hr2 Hr3 Hv.
  assert (Ek : k = (P + 20)%nat).
  { unfold frame_advance in Hadv. cbn [sprite_name se_name textbox_name] in Hadv.
    rewrite Hn1, Hn2, Hn3 in Hadv. unfold bind in Hadv. injection Hadv as <-.
    reflexivity. }
  pose proof (ResName_from_bytes_needs_4 _ _ E2) as H2.
  pose proof (ResName_from_bytes_needs_4 _ _ E3) as H3.
  rewrite length_skipn in H2, H3.
  pose proof (struct_unpack_I_inv _ _ _ Ev) as [Hvl ->].
  rewrite length_slice in Hvl.
  unfold TtpFrame_to_bytes.
  cbn [sprite_name se_name textbox_name delay_ms x_offset_textbox
       y_offset_textbox x_offset y_offset].
  rewrite (ResName_reencode _ _ _ Hr1 Hn1) by lia.
  rewrite (ResName_reencode _ _ _ E2 Hn2) by (rewrite length_skipn; lia).
  rewrite (ResName_reencode _ _ _ E3 Hn3) by (rewrite length_skipn; lia).
  unfold bind at 1 2 3.
  set (ws := unpack_words 5 (slice P (P + 20) buf)).
  assert (Hws : [item 0 ws; item 1 ws; item 2 ws; item 3 ws; item 4 ws] = ws)
    by reflexivity.
  rewrite Hws. subst ws. rewrite pack_unpack_words by (rewrite length_slice; lia).
  unfold bind. f_equal. rewrite Ek. unfold P.
  rewrite (firstn_plus (4 + n1 + (4 + n2) + (4 + n3)) 20).
  rewrite (firstn_plus (4 + n1 + (4 + n2)) (4 + n3)).
  rewrite (firstn_plus (4 + n1) (4 + n2)).
  rewrite <- !app_assoc. unfold slice.
  replace (4 + n1 + (4 + n2) + (4 + n3) + 20 - (4 + n1 + (4 + n2) + (4 + n3)))%nat
    with 20%nat by lia.
  reflexivity.
Qed.

Lemma slice_plus (a b c : nat) (l : bytes) :
  slice a (a + b + c) l = slice a (a + b) l ++ slice (a + b) (a + b + c) l.
Proof.
  unfold slice.
  replace (a + b + c - a)%nat with (b + c)%nat by lia.
  replace (a + b - a)%nat with b by lia.
  replace (a + b + c - (a + b))%nat with c by lia.
  rewrite firstn_plus, skipn_skipn. do 3 f_equal. lia.
Qed.

Lemma read_frames_reencode (n : nat) (buf : bytes) :
  forall pos frs pos',
    read_frames n buf pos = Ok (frs, pos') ->
    (pos <= pos')%nat /\ frames_to_bytes frs = Ok (slice pos pos' buf).
Proof.
  induction n as [|n IH]; intros pos frs pos' H; cbn [read_frames] in H.
  - injection H as <- <-. split; [lia|].
    unfold slice. rewrite Nat.sub_diag. reflexivity.
  - inv_bind H. rename a into f, Ha into Hf.
    inv_bind H. rename a into adv, Ha into Hadv.
    inv_bind H. destruct a as [rest p']. cbn in H. injection H as <- <-.
    destruct (TtpFrame_reencode _ _ Hf) as (k & _ & Hadv' & _ & Hb).
    rewrite Hadv in Hadv'. injection Hadv' as ->.
    destruct (IH _ _ _ Ha) as [Hle Hrest].
    split; [lia|].
    cbn [frames_to_bytes]. rewrite Hb, Hrest. cbn [bind]. f_equal.
    replace (slice pos p' buf)
      with (slice pos (pos + k + (p' - (pos + k))) buf) by (f_equal; lia).
    rewrite slice_plus.
    replace (firstn k (skipn pos buf)) with (slice pos (pos + k) buf)
      by (unfold slice; f_equal; lia).
    replace (pos + k + (p' - (pos + k)))%nat with p' by lia.
    reflexivity.
Qed.

(** X8: encoding a decoded animation gives back the bytes the decoder
    read: the header and the frames the bytes declare, and the optional
    byte when it was read. Bytes after them are dropped. *)
Theorem decode_then_encode_is_prefix (buf : bytes) (t : TtpFile) :
  TtpFile_from_bytes buf = Ok t ->
  exists k,
    document_span buf = Some k /\
    TtpFile_to_bytes t
    = Ok (firstn (k + match onetime_wakeup_dont_play_sound t with
                      | Some _ => 1
                      | None => 0
                      end) buf).
Proof.
  intros Ht. destruct (TtpFile_from_bytes_span _ _ Ht) as (k & Hk & _).
  exists k. split; [exact Hk|].
  unfold TtpFile_from_bytes in Ht.
  inv_bind Ht. rename a into header, Ha into Hh.
  inv_bind Ht. destruct a as [frs pos]. cbn in Ht.
  inv_bind Ht. rename a into flag, Ha0 into Hflag. injection Ht as <-.
  destruct (struct_unpack_I_inv _ _ _ Hh) as [Hlen ->].
  rewrite length_slice in Hlen.
  destruct (read_frames_span _ _ _ _ _ Ha) as (k' & Hk' & -> & _).
  assert (k = (16 + k')%nat).
  { unfold document_span in Hk. destruct (Nat.leb_spec 16 (length buf)); [|lia].
    cbv zeta in Hk.
    replace (le_combine (slice 4 8 buf))
      with (item 1 (unpack_words 4 (slice 0 16 buf))) in Hk.
    - rewrite Hk' in Hk. injection Hk as <-. reflexivity.
    - cbn [unpack_words item nth]. f_equal.
      unfold slice. rewrite skipn_O, skipn_firstn_comm, firstn_firstn. reflexivity. }
  subst k.
  destruct (read_frames_reencode _ _ _ _ _ Ha) as [_ Hbody].
  unfold TtpFile_to_bytes.
  cbn [maybe_ttp_type frame_count window_width window_height frames
       onetime_wakeup_dont_play_sound].
  set (ws := unpack_words 4 (slice 0 16 buf)) in *.
  assert (Hflag' :
    (if (item 0 ws =? 3) && Nat.ltb (16 + k') (length buf)
     then bind (struct_unpack_B (slice (16 + k') (16 + k' + 1) buf))
               (fun v => Ok (Some v))
     else Ok None) = Ok flag) by exact Hflag.
  clear Hflag.
  assert (Hws : [item 0 ws; item 1 ws; item 2 ws; item 3 ws] = ws) by reflexivity.
  rewrite Hws. unfold ws at 1.
  rewrite pack_unpack_words by (rewrite length_slice; lia).
  unfold bind at 1. rewrite Hbody. unfold bind at 1.
  rewrite slice_0.
  assert (Hpre : firstn 16 buf ++ slice 16 (16 + k') buf = firstn (16 + k') buf).
  { rewrite firstn_plus. unfold slice. do 2 f_equal. lia. }
  destruct ((item 0 ws =? 3) && Nat.ltb (16 + k') (length buf)) eqn:Hcond.
  - apply andb_true_iff in Hcond. destruct Hcond as [Hty Hlt].
    apply Nat.ltb_lt in Hlt.
    unfold struct_unpack_B in Hflag'.
    destruct (slice (16 + k') (16 + k' + 1) buf) as [|x [|y l]] eqn:Hs;
      try discriminate.
    unfold bind in Hflag'. injection Hflag' as <-.
    rewrite Hty. unfold struct_pack_B.
    replace (is_u8 (byte.unsigned x)) with true
      by (symmetry; apply is_u8_true, byte.unsigned_range).
    rewrite byte.of_Z_unsigned. unfold bind. f_equal.
    rewrite app_assoc, Hpre, (firstn_plus (16 + k') 1).
    f_equal. unfold slice in Hs.
    replace (16 + k' + 1 - (16 + k'))%nat with 1%nat in Hs by lia. symmetry. exact Hs.
  - injection Hflag' as <-. unfold bind. f_equal.
    rewrite app_nil_r, Nat.add_0_r. exact Hpre.
Qed.

End Reencode.

Lemma decode_then_encode_is_prefix_witness :
  exists t,
    @TtpFile_from_bytes X0201.codec (empty_animation ++ [xff; xff]) = Ok t /\
    @TtpFile_to_bytes X0201.codec t = Ok empty_animation.
Proof.
  eexists. split; [reflexivity|].
  destruct (@decode_then_encode_is_prefix X0201.codec X0201Facts.laws
              X0201Reencode.reencodes (empty_animation ++ [xff; xff]) _ eq_refl)
    as (k & Hk & Hb).
  rewrite Hb. injection Hk as <-. reflexivity.
Defined.

(** ** Bytes after an encoded animation *)

Section Trailing.
Context {SJ : ShiftJis}.

(** X9: decoding reads the encoding of a well-formed animation back even
    when other bytes follow it, with one exception: the encoding does not
    say whether the optional byte of a type 3 animation is there, so when
    it is unset the first byte that follows is taken for it. *)
Theorem TtpFile_round_trip_before_other_bytes (t : TtpFile) (extra : bytes) :
  document_well_formed t ->
  exists b,
    TtpFile_to_bytes t = Ok b /\
    TtpFile_from_bytes (b ++ extra) = Ok (decoded_before t extra).
Proof.
  destruct t as [ty count w h fs flag].
  unfold document_well_formed, decoded_before, with_optional_byte, u32.
  cbn [maybe_ttp_type frame_count window_width window_height frames
       onetime_wakeup_dont_play_sound].
  intros (Hcount & Hty & Hc & Hw & Hh & Hfs & Hflag).
  destruct (frames_round_trip fs Hfs) as (body & Hbody & Hread).
  assert (Hall : Forall (fun z => 0 <= z < 2 ^ 32) [ty; count; w; h])
    by (repeat constructor; lia).
  set (header := flat_map (le_split 4) [ty; count; w; h]).
  assert (Hhl : length header = 16%nat)
    by (unfold header; rewrite flat_map_le_split_length; reflexivity).
  set (tail := match flag with
               | Some v => if ty =? 3 then [byte.of_Z v] else []
               | None => []
               end).
  exists (header ++ body ++ tail). split.
  - unfold TtpFile_to_bytes.
    cbn [maybe_ttp_type frame_count window_width window_height frames
         onetime_wakeup_dont_play_sound].
    rewrite (struct_pack_I_ok _ Hall), Hbody. unfold bind at 1 2.
    destruct flag as [v|]; [|reflexivity].
    destruct Hflag as [-> Hv]. unfold struct_pack_B.
    replace (is_u8 v) with true by (symmetry; apply is_u8_true; exact Hv).
    reflexivity.
  - unfold TtpFile_from_bytes. rewrite <- !app_assoc.
    replace (slice 0 16 (header ++ body ++ tail ++ extra)) with header
      by (rewrite slice_0; symmetry; apply firstn_exact, Hhl).
    unfold header at 1. change 4%nat with (length [ty; count; w; h]) at 1.
    rewrite (struct_unpack_pack _ Hall). unfold bind at 1.
    unfold item, nth. rewrite Hcount, Nat2Z.id.
    rewrite <- Hhl at 1. rewrite (Hread header (tail ++ extra)). unfold bind at 1.
    cbv beta iota zeta. rewrite Hhl.
    set (whole := header ++ body ++ tail ++ extra).
    assert (Hwl : length whole = (16 + length body + length tail + length extra)%nat)
      by (unfold whole; rewrite !length_app, Hhl; lia).
    assert (Hnext : forall x rest, tail ++ extra = x :: rest ->
              slice (16 + length body) (16 + length body + 1) whole = [x]).
    { intros x rest E. unfold whole. rewrite E, app_assoc.
      apply (slice_exact (header ++ body) [x] rest (16 + length body) 1);
        [rewrite length_app, Hhl; reflexivity | reflexivity]. }
    destruct flag as [v|].
    + destruct Hflag as [-> Hv]. change (3 =? 3) with true in *. cbn [andb].
      subst tail. cbn [length] in Hwl.
      destruct (Nat.ltb_spec (16 + length body) (length whole)); [|lia].
      rewrite (Hnext (byte.of_Z v) extra eq_refl).
      cbn [struct_unpack_B bind]. rewrite byte.unsigned_of_Z.
      unfold byte.wrap. rewrite Z.mod_small by exact Hv. reflexivity.
    + subst tail. cbn [length app] in *. destruct extra as [|x rest].
      * cbn [length] in Hwl.
        destruct (Nat.ltb_spec (16 + length body) (length whole)); [lia|].
        rewrite andb_false_r. reflexivity.
      * cbn [length] in Hwl.
        destruct (Nat.ltb_spec (16 + length body) (length whole)); [|lia].
        rewrite andb_true_r. destruct (ty =? 3); [|reflexivity].
        rewrite (Hnext x rest eq_refl). reflexivity.
Qed.

End Trailing.

Lemma TtpFile_round_trip_before_other_bytes_witness :
  exists b,
    @TtpFile_to_bytes X0201.codec
      (with_optional_byte (one_frame_document [97; 46; 98; 109; 112]) None) = Ok b /\
    @TtpFile_from_bytes X0201.codec (b ++ [x07; x08])
    = Ok (with_optional_byte (one_frame_document [97; 46; 98; 109; 112]) (Some 7)).
Proof.
  apply (@TtpFile_round_trip_before_other_bytes X0201.codec
           (with_optional_byte (one_frame_document [97; 46; 98; 109; 112]) None)
           [x07; x08]).
  unfold document_well_formed, u32. cbn.
  repeat split; try lia.
  constructor; [|constructor].
  unfold frame_well_formed, u32. cbn.
  repeat split; try lia;
    first [exact X0201_ascii_round_trips | exact X0201_empty_round_trips].
Defined.

(** ** Reading the entry table *)

Section EntryTable.
Context {SJ : ShiftJis}.

(** An entry that is read had at least the eight bytes of its offset and
    size; the read position moves over the header, or to the end of the
    file when the name field is cut, and the content is not touched. *)
Lemma PacEntry_from_file_position (f f' : BinaryIO) (e : PacEntry) :
  PacEntry_from_file f = Ok (e, f') ->
  content f' = content f /\
  (position f + 8 <= length (content f))%nat /\
  position f' = (position f + 8
                 + Nat.min 56 (length (content f) - (position f + 8)))%nat.
Proof.
  unfold PacEntry_from_file, f_read, f_seek, f_tell. cbv beta iota zeta.
  simpl content. simpl position.
  destruct (Nat.ltb_spec
              (length (slice (position f) (position f + 8) (content f))) 8)
    as [|Hge]; [discriminate|].
  intros H. inv_bind H. inv_bind H. injection H as <- <-.
  rewrite length_slice in Hge. simpl content. simpl position.
  rewrite !length_slice. unfold ENTRY_NAME_SIZE.
  split; [reflexivity|]. split; lia.
Qed.

Lemma read_entries_position (n : nat) :
  forall f es f',
    read_entries n f = Ok (es, f') ->
    length es = n /\
    content f' = content f /\
    (n <> 0%nat -> (position f + 64 * (n - 1) + 8 <= length (content f))%nat).
Proof.
  induction n as [|n IH]; intros f es f' H; cbn [read_entries] in H.
  - injection H as <- <-. repeat split. intros C. contradiction.
  - inv_bind H. destruct a as [e f1]. cbn in H.
    inv_bind H. destruct a as [es1 f2]. cbn in H. injection H as <- <-.
    destruct (PacEntry_from_file_position _ _ _ Ha) as (Hc & H8 & Hpos).
    destruct (IH _ _ _ Ha0) as (Hlen & Hc2 & Hrest).
    split; [cbn [length]; congruence|]. split; [congruence|].
    intros _. destruct n as [|m]; [lia|].
    specialize (Hrest ltac:(discriminate)). rewrite Hc in Hrest. lia.
Qed.

(** X10: what [PacArchive.from_file] checks of the entry table. A file
    shorter than four bytes is refused with [ValueError]. An archive that
    is returned has as many entries as its first four bytes count, and the
    file holds every header before the last in full and at least the
    offset and size of the last. *)
Theorem PacArchive_from_file_entry_table (file : bytes) :
  ((length file < 4)%nat -> PacArchive_from_file file = Raise ValueError) /\
  (forall a, PacArchive_from_file file = Ok a ->
     entries_count a = le_combine (firstn 4 file) /\
     length (entries a) = Z.to_nat (entries_count a) /\
     (entries a <> [] ->
      (4 + 64 * (length (entries a) - 1) + 8 <= length file)%nat)).
Proof.
  unfold PacArchive_from_file, f_read. cbv beta iota zeta.
  simpl content. simpl position. split.
  - intros Hlen.
    destruct (Nat.ltb_spec (length (slice 0 (0 + 4) file)) 4) as [|Hge];
      [reflexivity|].
    rewrite length_slice in Hge. lia.
  - intros a.
    destruct (Nat.ltb_spec (length (slice 0 (0 + 4) file)) 4) as [|Hge];
      [discriminate|].
    intros H. inv_bind H. inv_bind H. destruct a1 as [es f']. cbn in H.
    injection H as <-. cbn [entries_count entries].
    pose proof (struct_unpack_I_inv _ _ _ Ha) as [_ ->].
    assert (E : item 0 (unpack_words 1 (slice 0 (0 + 4) file))
                = le_combine (firstn 4 file)).
    { unfold item. cbn [unpack_words nth]. rewrite slice_0, firstn_firstn.
      reflexivity. }
    rewrite E in *.
    destruct (read_entries_position _ _ _ _ Ha0) as (Hlen & _ & Hrest).
    simpl content in Hrest. simpl position in Hrest.
    split; [reflexivity|]. split; [exact Hlen|].
    intros Hne. rewrite Hlen.
    rewrite length_slice in Hge, Hrest.
    assert (Hnz : Z.to_nat (le_combine (firstn 4 file)) <> 0%nat).
    { intros Hz. rewrite Hz in Hlen. destruct es; [contradiction | discriminate]. }
    specialize (Hrest Hnz). lia.
Qed.

End EntryTable.

Lemma PacArchive_from_file_entry_table_witness :
  @PacArchive_from_file X0201.codec [x01; x00; x00] = Raise ValueError /\
  exists a, @PacArchive_from_file X0201.codec cut_archive = Ok a /\
            length (entries a) = 1%nat /\
            (4 + 64 * 0 + 8 <= length cut_archive)%nat.
Proof.
  split.
  - apply (@PacArchive_from_file_entry_table X0201.codec [x01; x00; x00]).
    cbn. lia.
  - eexists. split; [reflexivity|].
    destruct (@PacArchive_from_file_entry_table X0201.codec cut_archive) as [_ H].
    destruct (H _ eq_refl) as (_ & Hlen & Hbound).
    split; [exact Hlen|]. apply Hbound. discriminate.
Defined.

(** ** Reading a packed archive *)

Section ReadPacked.
Context {SJ : ShiftJis}.

Lemma find_null_bound (b : bytes) (i : nat) :
  find_null b = Some i -> (i < length b)%nat.
Proof.
  revert i. induction b as [|x b IH]; cbn [find_null]; intros i H; [discriminate|].
  destruct (Byte.eqb x x00).
  - injection H as <-. cbn. lia.
  - destruct (find_null b) as [j|]; [|discriminate]. injection H as <-.
    specialize (IH _ eq_refl). cbn. lia.
Qed.

Lemma find_null_padded (b : bytes) (k : nat) :
  find_null (b ++ repeat x00 (S k))
  = Some (match find_null b with Some i => i | None => length b end).
Proof.
  induction b as [|x b IH]; [reflexivity|].
  cbn [app find_null length]. destruct (Byte.eqb x x00); [reflexivity|].
  rewrite IH. destruct (find_null b); reflexivity.
Qed.

(** The name field of a header, cut at its first zero byte, is the
    encoded name cut at 55 bytes and at its first zero byte. *)
Lemma name_field_until_null (enc : bytes) :
  match find_null (firstn 55 enc ++ repeat x00 (56 - Nat.min 55 (length enc))) with
  | Some null_pos =>
      slice 0 null_pos (firstn 55 enc ++ repeat x00 (56 - Nat.min 55 (length enc)))
  | None => firstn 55 enc ++ repeat x00 (56 - Nat.min 55 (length enc))
  end = until_null (firstn 55 enc).
Proof.
  replace (56 - Nat.min 55 (length enc))%nat
    with (S (55 - Nat.min 55 (length enc))) by lia.
  rewrite find_null_padded. unfold until_null. rewrite slice_0.
  destruct (find_null (firstn 55 enc)) as [i|] eqn:Hf.
  - apply find_null_bound in Hf.
    rewrite firstn_app. replace (i - length (firstn 55 enc))%nat with 0%nat by lia.
    rewrite firstn_O, app_nil_r. reflexivity.
  - apply firstn_exact. reflexivity.
Qed.

Lemma PacEntry_to_bytes_u32 (e : PacEntry) (h : bytes) :
  PacEntry_to_bytes e = Ok h ->
  0 <= offset e < 2 ^ 32 /\ 0 <= size e < 2 ^ 32.
Proof.
  unfold PacEntry_to_bytes. intros H. inv_bind H.
  apply struct_pack_I_inv in Ha. destruct Ha as [_ Hall].
  inversion Hall as [|? ? Ho Hall']; subst.
  inversion Hall' as [|? ? Hs _]; subst. split; assumption.
Qed.

(** Reading one header of a packed archive: the header [h] of the packed
    entry [e'] sits at the read position, and the packed file [p] at the
    offset the header names. *)
Lemma PacEntry_from_file_packed (out pre h post p : bytes) (e' : PacEntry) :
  out = pre ++ h ++ post ->
  PacEntry_to_bytes e' = Ok h ->
  size e' = Z.of_nat (length p) ->
  slice (Z.to_nat (offset e')) (Z.to_nat (offset e') + length p) out = p ->
  PacEntry_from_file {| content := out; position := length pre |}
  = (e <- read_back e' p ;;
     Ok (e, {| content := out; position := (length pre + 64)%nat |})).
Proof.
  intros Hout Hh Hsize Hp.
  destruct (PacEntry_to_bytes_u32 _ _ Hh) as [Ho Hs].
  destruct (PacEntry_to_bytes_inv _ _ Hh) as (nf & -> & Hnf & Hnfl & _).
  set (w8 := le_split 4 (offset e') ++ le_split 4 (size e')).
  assert (Hw8 : length w8 = 8%nat)
    by (unfold w8; rewrite length_app, !length_le_split; reflexivity).
  assert (Hout' : out = pre ++ w8 ++ nf ++ post)
    by (rewrite Hout; unfold w8; rewrite <- !app_assoc; reflexivity).
  assert (R1 : slice (length pre) (length pre + 8) out = w8)
    by (rewrite Hout'; apply slice_exact; [reflexivity | exact Hw8]).
  assert (R2 : slice (length pre + 8) (length pre + 8 + ENTRY_NAME_SIZE) out = nf).
  { rewrite Hout', (app_assoc pre w8). apply slice_exact; [|exact Hnfl].
    rewrite length_app, Hw8. reflexivity. }
  assert (U : struct_unpack_I 2 w8 = Ok [offset e'; size e']).
  { unfold w8. change 2%nat with (length [offset e'; size e']).
    replace (le_split 4 (offset e') ++ le_split 4 (size e'))
      with (flat_map (le_split 4) [offset e'; size e'])
      by (cbn [flat_map]; rewrite app_nil_r; reflexivity).
    apply struct_unpack_pack.
    constructor; [exact Ho | constructor; [exact Hs | constructor]]. }
  unfold PacEntry_from_file, f_read, f_seek, f_tell. cbv beta iota zeta.
  simpl content. simpl position.
  rewrite R1, Hw8, U. change (Nat.ltb 8 8) with false. cbv iota. unfold bind at 1.
  rewrite R2. unfold item, nth.
  rewrite Hsize, Nat2Z.id, Hp.
  subst nf. rewrite name_field_until_null.
  unfold read_back, name_read, lenient_decode.
  destruct (PacFile_from_bytes p (length p)) as [fd|err]; [|reflexivity].
  unfold bind. rewrite Hsize, length_app, length_firstn, repeat_length.
  do 3 f_equal. lia.
Qed.

Lemma read_entries_packed (out : bytes) (es' : list PacEntry) :
  forall hs ps pre tl1 pre2 tl2 off,
    Forall2 (fun e' h => PacEntry_to_bytes e' = Ok h) es' hs ->
    placed_from off es' ps ->
    out = pre ++ concat hs ++ tl1 ->
    out = pre2 ++ concat ps ++ tl2 ->
    0 <= off -> length pre2 = Z.to_nat off ->
    read_entries (length es') {| content := out; position := length pre |}
    = (l <- read_back_all es' ps ;;
       Ok (l, {| content := out;
                 position := (length pre + 64 * length es')%nat |})).
Proof.
  induction es' as [|e' es' IH];
    intros hs ps pre tl1 pre2 tl2 off Hhs Hpl Hout1 Hout2 Hoff Hpre2.
  - cbn. rewrite Nat.add_0_r. reflexivity.
  - inversion Hhs as [|? h ? hs' Hh Hhs']; subst hs.
    destruct ps as [|p ps]; [contradiction|].
    cbn [placed_from] in Hpl. destruct Hpl as (Ho & Hs & Hpl).
    cbn [concat] in Hout1, Hout2. rewrite <- app_assoc in Hout1, Hout2.
    cbn [length read_entries read_back_all].
    rewrite (PacEntry_from_file_packed out pre h (concat hs' ++ tl1) p e'
               Hout1 Hh Hs).
    2:{ rewrite Ho, <- Hpre2, Hout2. apply slice_exact; reflexivity. }
    destruct (read_back e' p) as [e|err]; [|reflexivity]. cbn [bind].
    destruct (PacEntry_to_bytes_inv _ _ Hh) as (_ & _ & _ & _ & Hhl).
    specialize (IH hs' ps (pre ++ h) tl1 (pre2 ++ p) tl2
                  (off + Z.of_nat (length p)) Hhs' Hpl).
    rewrite !length_app, Hhl in IH. rewrite IH.
    + destruct (read_back_all es' ps) as [lst|err]; [|reflexivity]. cbn.
      do 3 f_equal. lia.
    + rewrite Hout1, <- app_assoc. reflexivity.
    + rewrite Hout2, <- app_assoc. reflexivity.
    + lia.
    + rewrite Hpre2. lia.
Qed.

Lemma pack_headers_placed (es : list PacEntry) :
  forall off es' hs,
    pack_headers es off = Ok (es', hs) ->
    exists ps,
      Forall2 packs_to es ps /\
      Forall2 (fun e e' => name e' = name e /\ file_data e' = file_data e) es es' /\
      placed_from off es' ps /\
      Forall2 (fun e' h => PacEntry_to_bytes e' = Ok h) es' hs /\
      pack_data es' = Ok (concat ps) /\
      length (concat hs) = (64 * length es)%nat.
Proof.
  induction es as [|e es IH]; intros off es' hs H; cbn [pack_headers] in H.
  - injection H as <- <-. exists []. repeat split; constructor.
  - inv_bind H. rename a into p, Ha into Hp.
    inv_bind H. rename a into h, Ha into Hh.
    inv_bind H. destruct a as [rest' hs']. cbn in H. injection H as <- <-.
    cbn [size] in Ha.
    destruct (IH _ _ _ Ha) as (ps & Hps & Hsame & Hpl & Hhs & Hdata & Hlen).
    destruct (PacEntry_to_bytes_inv _ _ Hh) as (_ & _ & _ & _ & Hhl).
    exists (p :: ps). repeat split.
    + constructor; assumption.
    + constructor; [split; reflexivity | exact Hsame].
    + exact Hpl.
    + constructor; assumption.
    + cbn [pack_data file_data]. rewrite Hp. cbn [bind]. rewrite Hdata. reflexivity.
    + cbn [concat length]. rewrite length_app, Hhl, Hlen. lia.
Qed.

Lemma PacArchive_from_file_of_pack_aux (es es' : list PacEntry) (out : bytes) :
  pack es = Ok (es', out) ->
  exists ps,
    Forall2 packs_to es ps /\
    Forall2 (fun e e' => name e' = name e /\ file_data e' = file_data e) es es' /\
    PacArchive_from_file out
    = (l <- read_back_all es' ps ;;
       Ok {| entries_count := Z.of_nat (length es); entries := l |}).
Proof.
  unfold pack. intros H. inv_bind H. rename a into cnt, Ha into Hcnt.
  inv_bind H. destruct a as [es1 hs]. cbn in H. inv_bind H. injection H as <- <-.
  apply struct_pack_I_inv in Hcnt. destruct Hcnt as [-> Hn].
  inversion Hn as [|? ? Hn' _]; subst.
  destruct (pack_headers_placed _ _ _ _ Ha) as (ps & Hps & Hsame & Hpl & Hhs & Hdata & Hlen).
  rewrite Hdata in Ha0. injection Ha0 as <-.
  exists ps. split; [exact Hps|]. split; [exact Hsame|].
  cbn [flat_map]. rewrite app_nil_r.
  set (cnt := le_split 4 (Z.of_nat (length es))).
  assert (Hcl : length cnt = 4%nat) by apply length_le_split.
  set (whole := cnt ++ concat hs ++ concat ps).
  unfold PacArchive_from_file, f_read. cbv beta iota zeta.
  simpl content. simpl position.
  assert (R : slice 0 (0 + 4) whole = cnt)
    by (unfold whole; rewrite slice_0; apply firstn_exact, Hcl).
  rewrite R, Hcl. change (Nat.ltb 4 4) with false. cbv iota.
  unfold cnt at 1. rewrite struct_unpack_one by exact Hn'.
  unfold bind at 1. unfold item, nth. rewrite Nat2Z.id.
  assert (Hl' : length es1 = length es).
  { clear - Hsame. induction Hsame; cbn; congruence. }
  rewrite <- Hl'. change (0 + 4)%nat with 4%nat. rewrite <- Hcl.
  rewrite (read_entries_packed whole es1 hs ps cnt (concat ps)
             (cnt ++ concat hs) []
             (4 + Z.of_nat ENTRY_HEADER_SIZE * Z.of_nat (length es))
             Hhs Hpl).
  - destruct (read_back_all es1 ps) as [l|err]; reflexivity.
  - reflexivity.
  - unfold whole. rewrite app_nil_r, <- app_assoc. reflexivity.
  - change (Z.of_nat ENTRY_HEADER_SIZE) with 64. lia.
  - rewrite length_app, Hcl, Hlen. change (Z.of_nat ENTRY_HEADER_SIZE) with 64. lia.
Qed.

(** X11: reading a packed archive. The archive [pack] writes is read by
    [PacArchive.from_file] entry by entry: each entry comes back with the
    offset and size [pack] gave it, the name its header holds, and the
    file [from_bytes] classifies from its packed bytes. *)
Theorem PacArchive_from_file_of_pack (es es' : list PacEntry) (out : bytes) :
  pack es = Ok (es', out) ->
  exists ps,
    Forall2 packs_to es ps /\
    PacArchive_from_file out
    = (l <- read_back_all es' ps ;;
       Ok {| entries_count := Z.of_nat (length es); entries := l |}).
Proof.
  intros H. destruct (PacArchive_from_file_of_pack_aux _ _ _ H) as (ps & Hps & _ & Hr).
  exists ps. split; assumption.
Qed.

Lemma read_back_all_exact (es es' : list PacEntry) :
  forall ps,
    Forall2 (fun e e' => name e' = name e /\ file_data e' = file_data e) es es' ->
    Forall2 reads_back es ps ->
    read_back_all es' ps = Ok es'.
Proof.
  intros ps Hsame. revert ps.
  induction Hsame as [|e e' es es' [Hn Hf] _ IH]; intros ps Hrb.
  - inversion Hrb. reflexivity.
  - inversion Hrb as [|? p ? ps' [Hname Hfile] Hrest]; subst.
    cbn [read_back_all]. unfold read_back. rewrite Hfile. cbn [bind].
    rewrite (IH _ Hrest). rewrite Hn, Hname, <- Hn, <- Hf.
    destruct e'; reflexivity.
Qed.

(** X12: an archive whose entries read back as they were packed (the name
    comes back from its header, the file from its packed bytes) is read by
    [PacArchive.from_file] as exactly the entries [pack] left in the
    builder. *)
Theorem pack_then_from_file (es es' : list PacEntry) (out : bytes) (ps : list bytes) :
  pack es = Ok (es', out) ->
  Forall2 packs_to es ps ->
  Forall2 reads_back es ps ->
  PacArchive_from_file out
  = Ok {| entries_count := Z.of_nat (length es); entries := es' |}.
Proof.
  intros Hpack Hps Hrb.
  destruct (PacArchive_from_file_of_pack_aux es es' out Hpack)
    as (ps' & Hps' & Hsame & Hread).
  assert (ps' = ps).
  { clear - Hps Hps'. revert ps' Hps'.
    induction Hps as [|e p es ps Hp _ IH]; intros ps' Hps'; inversion Hps'; subst.
    - reflexivity.
    - unfold packs_to in *. f_equal; [congruence | apply IH; assumption]. }
  subst ps'. rewrite Hread, (read_back_all_exact es es' ps Hsame Hrb). reflexivity.
Qed.

End ReadPacked.

Lemma PacArchive_from_file_of_pack_witness :
  exists es' out a,
    @pack X0201.codec two_entries = Ok (es', out) /\
    @PacArchive_from_file X0201.codec out = Ok a /\
    entries_count a = 2 /\
    map name (entries a) = [[97]; [98]] /\
    map offset (entries a) = [132; 141] /\
    map (fun e => file_type (file_data e)) (entries a) = [bmz; other].
Proof.
  do 3 eexists. split; [reflexivity|].
  destruct (@PacArchive_from_file_of_pack X0201.codec two_entries _ _ eq_refl)
    as (ps & Hps & Hr).
  inversion Hps as [|e1 p1 r1 q1 Hp1 Hps1]; subst.
  inversion Hps1 as [|e2 p2 r2 q2 Hp2 Hps2]; subst.
  inversion Hps2; subst.
  unfold packs_to in Hp1, Hp2. injection Hp1 as <-. injection Hp2 as <-.
  split; [exact Hr|]. repeat split.
Defined.

Lemma pack_then_from_file_witness :
  exists es' out,
    @pack X0201.codec two_entries = Ok (es', out) /\
    @PacArchive_from_file X0201.codec out
    = Ok {| entries_count := 2; entries := es' |}.
Proof.
  do 2 eexists. split; [reflexivity|].
  apply (@pack_then_from_file X0201.codec two_entries _ _
           [ZLC3 ++ le_split 4 7 ++ [x01]; [x02; x03]] eq_refl).
  - repeat constructor.
  - repeat constructor.
Defined.

(** ** Names that come back from a header *)

Section HeaderNames.
Context {SJ : ShiftJis} {SJL : ShiftJisLaws SJ}.

(** A name that [add_entry] accepts comes back from its header when its
    encoding has no zero byte and decodes to it. *)
Lemma name_read_strict (nm : text) (enc : bytes) :
  sj_encode nm = Some enc ->
  (length enc <= 55)%nat ->
  find_null enc = None ->
  sj_decode enc = Some nm ->
  name_read nm = nm.
Proof.
  intros He Hlen Hnull Hd. unfold name_read, until_null, lenient_decode.
  rewrite (sj_replace_agrees _ _ He), firstn_all2 by lia.
  rewrite Hnull, Hd. reflexivity.
Qed.

End HeaderNames.

(** ** Packing twice *)

Section PackTwice.
Context {SJ : ShiftJis}.

Lemma pack_headers_same_content (es1 es2 : list PacEntry) :
  Forall2 same_content es1 es2 ->
  forall off, pack_headers es2 off = pack_headers es1 off.
Proof.
  induction 1 as [|e1 e2 es1 es2 [Hn Hf] _ IH]; intros off; [reflexivity|].
  cbn [pack_headers]. rewrite Hn, Hf.
  destruct (PacFile_to_bytes (file_data e1)) as [p|]; [|reflexivity].
  cbn [bind size]. rewrite IH. reflexivity.
Qed.

Lemma Forall2_same_length {A B} (R : A -> B -> Prop) l1 l2 :
  Forall2 R l1 l2 -> length l1 = length l2.
Proof. induction 1; cbn; congruence. Qed.

Lemma pack_same_content (es1 es2 : list PacEntry) :
  Forall2 same_content es1 es2 -> pack es2 = pack es1.
Proof.
  intros H. unfold pack.
  rewrite <- (Forall2_same_length _ _ _ H).
  destruct (struct_pack_I [Z.of_nat (length es1)]); [|reflexivity].
  cbn [bind]. rewrite (pack_headers_same_content _ _ H). reflexivity.
Qed.

(** X13: [pack] reads the names and the files of the entries only; the
    offsets and sizes they hold are overwritten. So entries that differ in
    offsets and sizes alone pack to the same archive, and packing the
    builder a second time writes the same archive again. *)
Theorem pack_ignores_offsets_and_sizes (es : list PacEntry) :
  (forall es2, Forall2 same_content es es2 -> pack es2 = pack es) /\
  (forall es' out, pack es = Ok (es', out) -> pack es' = Ok (es', out)).
Proof.
  split; [intros es2 H; apply pack_same_content, H|].
  intros es' out H. rewrite <- H. apply pack_same_content.
  unfold pack in H. inv_bind H. inv_bind H. destruct a0 as [es1 hs]. cbn in H.
  inv_bind H. injection H as <- _.
  destruct (pack_headers_placed _ _ _ _ Ha0) as (ps & _ & Hsame & _).
  exact Hsame.
Qed.

End PackTwice.

Lemma pack_ignores_offsets_and_sizes_witness :
  exists es' out,
    @pack X0201.codec two_entries = Ok (es', out) /\
    map offset es' <> map offset two_entries /\
    @pack X0201.codec es' = Ok (es', out).
Proof.
  do 2 eexists. split; [reflexivity|]. split; [discriminate|].
  apply (@pack_ignores_offsets_and_sizes X0201.codec two_entries). reflexivity.
Defined.

(** ** What a decoded animation looks like *)

Section Decoded.
Context {SJ : ShiftJis} {SJL : ShiftJisLaws SJ} {SJR : ShiftJisReencodes SJ}.

Lemma le_combine_firstn_4_range (b : bytes) : 0 <= le_combine (firstn 4 b) < 2 ^ 32.
Proof.
  pose proof (le_combine_bound (firstn 4 b)) as H.
  assert (Hl : (length (firstn 4 b) <= 4)%nat) by (rewrite length_firstn; lia).
  split; [lia|]. eapply Z.lt_le_trans; [apply H|].
  apply Z.pow_le_mono_r; lia.
Qed.

Lemma unpack_words_range (n : nat) :
  forall b i, 0 <= item i (unpack_words n b) < 2 ^ 32.
Proof.
  unfold item. induction n as [|n IH]; intros b i; cbn [unpack_words].
  - destruct i; cbn; lia.
  - destruct i as [|i]; cbn [nth]; [apply le_combine_firstn_4_range | apply IH].
Qed.

Lemma ResName_decoded_round_trips (buf : bytes) (r : ResName) (n : nat) :
  ResName_from_bytes buf = Ok r ->
  encoded_len r = Ok n ->
  text_round_trips (value r).
Proof.
  intros Hr Hn. unfold ResName_from_bytes in Hr. inv_bind Hr. injection Hr as <-.
  pose proof (struct_unpack_I_inv _ _ _ Ha) as [_ ->].
  assert (E : item 0 (unpack_words 1 (slice 0 4 buf)) = le_combine (firstn 4 buf)).
  { unfold item. cbn [unpack_words nth]. rewrite slice_0, firstn_firstn. reflexivity. }
  unfold encoded_len in Hn. unfold value in *. rewrite E in *.
  set (L := Z.to_nat (le_combine (firstn 4 buf))) in *.
  change (S (S (S (S L)))) with (4 + L)%nat in *.
  destruct (sj_decode (slice 4 (4 + L) buf)) as [s|] eqn:Hd.
  - exists (slice 4 (4 + L) buf). split; [apply sj_reencode, Hd|]. split; [exact Hd|].
    rewrite length_slice. pose proof (le_combine_firstn_4_range buf). lia.
  - rewrite (sj_replaced_unencodable _ Hd) in Hn. discriminate.
Qed.

Lemma TtpFrame_decoded_well_formed (buf : bytes) (f : TtpFrame) :
  TtpFrame_from_bytes buf = Ok f -> frame_well_formed f.
Proof.
  unfold TtpFrame_from_bytes. intros Hf.
  inv_bind Hf. rename a into r1, Ha into Hr1.
  inv_bind Hf. rename a into n1, Ha into Hn1.
  inv_bind Hf. rename a into r2, Ha into Hr2.
  inv_bind Hf. rename a into n2, Ha into Hn2.
  inv_bind Hf. rename a into r3, Ha into Hr3.
  inv_bind Hf. rename a into n3, Ha into Hn3.
  inv_bind Hf. rename a into vals, Ha into Hv.
  injection Hf as <-.
  pose proof (struct_unpack_I_inv _ _ _ Hv) as [_ ->].
  unfold frame_well_formed, u32.
  cbn [sprite_name se_name textbox_name delay_ms x_offset_textbox
       y_offset_textbox x_offset y_offset].
  repeat split;
    first [ eapply ResName_decoded_round_trips; eassumption
          | apply unpack_words_range ].
Qed.

Lemma read_frames_well_formed (n : nat) (buf : bytes) :
  forall pos frs pos',
    read_frames n buf pos = Ok (frs, pos') ->
    Forall frame_well_formed frs /\ length frs = n.
Proof.
  induction n as [|n IH]; intros pos frs pos' H; cbn [read_frames] in H.
  - injection H as <- _. split; [constructor | reflexivity].
  - inv_bind H. inv_bind H. inv_bind H. destruct a1 as [rest p']. cbn in H.
    injection H as <- _. destruct (IH _ _ _ Ha1) as [Hall Hlen].
    split; [|cbn; congruence].
    constructor; [eapply TtpFrame_decoded_well_formed; eassumption | exact Hall].
Qed.

(** X14: every animation [TtpFile.from_bytes] returns is well formed: its
    frame count is the number of its frames, its integers fit their
    fields, its names have a strict encoding that decodes back to them,
    and its optional byte is set only when its type is 3. *)
Theorem decoded_document_is_well_formed (buf : bytes) (t : TtpFile) :
  TtpFile_from_bytes buf = Ok t -> document_well_formed t.
Proof.
  unfold TtpFile_from_bytes. intros Ht.
  inv_bind Ht. rename a into header, Ha into Hh.
  inv_bind Ht. destruct a as [frs pos]. cbn in Ht.
  inv_bind Ht. rename a into flag, Ha0 into Hflag. injection Ht as <-.
  destruct (struct_unpack_I_inv _ _ _ Hh) as [_ ->].
  destruct (read_frames_well_formed _ _ _ _ _ Ha) as [Hall Hlen].
  set (ws := unpack_words 4 (slice 0 16 buf)) in *.
  assert (Hflag' :
    (if (item 0 ws =? 3) && Nat.ltb pos (length buf)
     then bind (struct_unpack_B (slice pos (pos + 1) buf)) (fun v => Ok (Some v))
     else Ok None) = Ok flag) by exact Hflag.
  clear Hflag.
  unfold document_well_formed, u32.
  cbn [maybe_ttp_type frame_count window_width window_height frames
       onetime_wakeup_dont_play_sound].
  pose proof (unpack_words_range 4 (slice 0 16 buf) 1) as Hc. fold ws in Hc.
  split; [rewrite Hlen, Z2Nat.id; [reflexivity | lia]|].
  split; [apply unpack_words_range|]. split; [exact Hc|].
  split; [apply unpack_words_range|]. split; [apply unpack_words_range|].
  split; [exact Hall|].
  destruct (item 0 ws =? 3) eqn:Hty; cbn [andb] in Hflag'.
  - destruct (Nat.ltb pos (length buf)).
    + unfold struct_unpack_B in Hflag'.
      destruct (slice pos (pos + 1) buf) as [|x [|y l]]; try discriminate.
      unfold bind in Hflag'. injection Hflag' as <-.
      split; [apply Z.eqb_eq, Hty | apply byte.unsigned_range].
    + injection Hflag' as <-. exact I.
  - injection Hflag' as <-. exact I.
Qed.

End Decoded.

Lemma decoded_document_is_well_formed_witness :
  exists t,
    @TtpFile_from_bytes X0201.codec (empty_animation ++ [xff; xff]) = Ok t /\
    @document_well_formed X0201.codec t.
Proof.
  eexists. split; [reflexivity|].
  apply (@decoded_document_is_well_formed X0201.codec X0201Facts.laws
           X0201Reencode.reencodes (empty_animation ++ [xff; xff])).
  reflexivity.
Defined.

(** ** Frames in binary form *)

Section Frames.
Context {SJ : ShiftJis}.

(** X15: a well-formed frame is read back from its bytes, whatever
    follows them, and the bytes stepped over for it are all of its
    bytes: three names and twenty bytes of integers. *)
Theorem TtpFrame_to_bytes_then_from_bytes (f : TtpFrame) (rest : bytes) :
  frame_well_formed f ->
  exists fb,
    TtpFrame_to_bytes f = Ok fb /\
    TtpFrame_from_bytes (fb ++ rest) = Ok f /\
    frame_advance f = Ok (length fb) /\
    (32 <= length fb)%nat.
Proof.
  intros Hf. destruct (TtpFrame_round_trip f Hf) as (fb & Hto & Hadv & Hfrom).
  exists fb. split; [exact Hto|]. split; [apply Hfrom|]. split; [exact Hadv|].
  unfold frame_advance in Hadv.
  destruct (encoded_len (sprite_name f)); [|discriminate].
  destruct (encoded_len (se_name f)); [|discriminate].
  destruct (encoded_len (textbox_name f)); [|discriminate].
  cbn [bind] in Hadv. injection Hadv as <-. lia.
Qed.

End Frames.

Lemma TtpFrame_to_bytes_then_from_bytes_witness :
  exists fb,
    @TtpFrame_to_bytes X0201.codec (frame_named [97; 46; 98; 109; 112]) = Ok fb /\
    @TtpFrame_from_bytes X0201.codec (fb ++ [x09]) = Ok (frame_named [97; 46; 98; 109; 112]) /\
    length fb = 37%nat.
Proof.
  destruct (@TtpFrame_to_bytes_then_from_bytes X0201.codec
              (frame_named [97; 46; 98; 109; 112]) [x09])
    as (fb & Hto & Hfrom & _ & _).
  - unfold frame_well_formed, u32. cbn.
    repeat split; try lia;
      first [exact X0201_ascii_round_trips | exact X0201_empty_round_trips].
  - exists fb. split; [exact Hto|]. split; [exact Hfrom|].
    cbv in Hto. injection Hto as <-. reflexivity.
Defined.
